(** * Authentication configuration ([src/auth/config.ts])

    A shallow embedding of the provider registry, the provider map, the
    Google One Tap [authorize] function and the four framework callbacks
    ([signIn], [redirect], [session], [jwt]), followed by the properties
    the specification states about them.

    JavaScript values are an inductive type, objects are finite maps from
    property names to values, and the effects of the code (console output,
    calls to collaborators, thrown exceptions) are made explicit by a small
    trace-and-exception monad. *)

From Stdlib Require Import ZArith Ascii String DecimalString.
From Stdlib Require Import Floats.PrimFloat Floats.SpecFloat Floats.FloatOps.
From stdpp Require Import gmap strings list fin_maps.

#[local] Set Warnings "-register-all".
Local Open Scope string_scope.

(** ** JavaScript values *)

Module Js.

(** The values the module handles: [undefined] and the JSON data model
    (what [response.json()] resolves to).  Numbers are IEEE doubles. *)
Inductive Value : Type :=
| Undefined
| Null
| Bool (b : bool)
| Num (f : float)
| Str (s : string)
| Arr (items : list Value)
| Obj (props : gmap string Value).

(** ToBoolean. *)
Definition truthy (v : Value) : bool :=
  match v with
  | Undefined | Null => false
  | Bool b => b
  | Num f => negb (PrimFloat.is_zero f || PrimFloat.is_nan f)
  | Str s => negb (String.eqb s "")
  | Arr _ | Obj _ => true
  end.

(** Reading a property [v.k] of a value that is neither [undefined] nor
    [null].  None of the property names read by the module exists on the
    prototypes of booleans, numbers, strings or arrays, except [sub] on
    strings, which is only used after [email] was found on the same value. *)
Definition get (v : Value) (k : string) : Value :=
  match v with
  | Obj props => default Undefined (props !! k)
  | _ => Undefined
  end.

(** [a || b] *)
Definition or (a b : Value) : Value := if truthy a then a else b.

(** [parts.join(sep)] on strings. *)
Fixpoint concat_with (sep : string) (parts : list string) : string :=
  match parts with
  | [] => ""
  | [p] => p
  | p :: rest => p +:+ sep +:+ concat_with sep rest
  end.

Section ToString.

(** Number::toString is the platform's. *)
Variable Number_toString : float -> string.

(** ToString, as applied by [+] against a string and by [Array.prototype.join]
    (where [undefined] and [null] elements give the empty string). *)
Fixpoint to_string (v : Value) : string :=
  match v with
  | Undefined => "undefined"
  | Null => "null"
  | Bool true => "true"
  | Bool false => "false"
  | Num f => Number_toString f
  | Str s => s
  | Arr items =>
      concat_with ","
        (List.map (fun x => match x with
                            | Undefined | Null => ""
                            | _ => to_string x
                            end) items)
  | Obj _ => "[object Object]"
  end.

Definition join_element (v : Value) : string :=
  match v with
  | Undefined | Null => ""
  | _ => to_string v
  end.

(** [items.join(sep)] *)
Definition join (sep : string) (items : list Value) : string :=
  concat_with sep (List.map join_element items).

End ToString.

End Js.

(** ** Exceptions, events and the effect monad *)

(** What a [throw] or a rejected promise carries. *)
Inductive Exn : Type :=
| TypeError (msg : string)
| SyntaxError (msg : string)
| Failure (reason : string).

(** The result of running a piece of code: it returns or it throws. *)
Inductive outcome (A : Type) : Type :=
| Returned (a : A)
| Thrown (e : Exn).
Arguments Returned {A} a.
Arguments Thrown {A} e.

(** The local user record of [@/types/user], as built by [jwt]. *)
Record User : Type := mkUser {
  uuid : Js.Value;
  email : Js.Value;
  nickname : Js.Value;
  avatar_url : Js.Value;
  signin_type : Js.Value;
  signin_provider : Js.Value;
  signin_openid : Js.Value;
  created_at : Js.Value;
  signin_ip : Js.Value
}.

(** Observable steps of a run, in order. *)
Inductive Event : Type :=
| console_log (msg : string)
| console_error (msg : string) (e : Exn)
| call_fetch (url : string)
| call_getUuid
| call_getIsoTimestr
| call_getClientIp
| call_saveUser (dbUser : User).

(** A computation yields the events it produced and how it ended. *)
Definition M (A : Type) : Type := list Event * outcome A.

Definition ret {A} (a : A) : M A := ([], Returned a).

Definition throw {A} (e : Exn) : M A := ([], Thrown e).

Definition bind {A B} (m : M A) (k : A -> M B) : M B :=
  match m with
  | (t, Returned a) => let '(t', r) := k a in ((t ++ t')%list, r)
  | (t, Thrown e) => (t, Thrown e)
  end.

(** [try { m } catch (e) { handler e }] *)
Definition try_catch {A} (m : M A) (handler : Exn -> M A) : M A :=
  match m with
  | (t, Thrown e) => let '(t', r) := handler e in ((t ++ t')%list, r)
  | (t, Returned a) => (t, Returned a)
  end.

(** Evaluating an expression (or awaiting a promise) that may throw. *)
Definition settle {A} (o : outcome A) : M A := ([], o).

Definition emit (ev : Event) : M unit := ([ev], Returned tt).

(** Calling a collaborator: the call is recorded, its outcome is the
    collaborator's. *)
Definition call {A} (ev : Event) (result : outcome A) : M A := ([ev], result).

#[global] Instance M_ret : MRet M := @ret.
#[global] Instance M_bind : MBind M := fun A B k m => bind m k.

Definition trace {A} (m : M A) : list Event := fst m.
Definition result {A} (m : M A) : outcome A := snd m.

(** ** The world the module runs in *)

(** A [Response] as far as the module looks at it: the [ok] flag and what
    [response.json()] settles to. *)
Record Response : Type := mkResponse {
  ok : bool;
  json : outcome Js.Value
}.

(** The platform and the collaborators, as oracles.  Each of them may throw
    (or reject). *)
Record World : Type := mkWorld {
  process_env : gmap string string;
  (** [new URL(url).origin]; the constructor throws a [TypeError] on a
      string that does not parse as an absolute URL. *)
  URL_origin : string -> outcome string;
  Number_toString : float -> string;
  fetch : string -> outcome Response;
  (** the time value of [new Date()] *)
  Date_now : Z;
  (** the helpers of [@/lib/hash], [@/lib/time] and [@/lib/ip] and the
      persistence service of [@/services/user], which live outside this
      module *)
  getUuid : outcome string;
  getIsoTimestr : outcome string;
  getClientIp : outcome string;
  saveUser : User -> outcome User
}.

(** [process.env.NAME] in a boolean position: set and not empty. *)
Definition env_truthy (env : gmap string string) (name : string) : bool :=
  match env !! name with
  | Some v => negb (String.eqb v "")
  | None => false
  end.

(** [process.env.NAME === value] *)
Definition env_is (env : gmap string string) (name value : string) : bool :=
  match env !! name with
  | Some v => String.eqb v value
  | None => false
  end.

(** ** Google One Tap: [authorize] *)

(** The user object [authorize] resolves to. *)
Record OneTapUser : Type := mkOneTapUser {
  id : Js.Value;
  name : string;
  (** the property [email] *)
  user_email : Js.Value;
  image : Js.Value;
  (** a [Date] (its time value) or [null] *)
  emailVerified : option Z
}.

Definition tokeninfo_endpoint : string :=
  "https://oauth2.googleapis.com/tokeninfo?id_token=".

(** [credentials!.credential]: the assertion is erased, so the read throws
    when [credentials] is [undefined]. *)
Definition read_credential (credentials : option (gmap string Js.Value))
  : M Js.Value :=
  match credentials with
  | None => throw (TypeError "Cannot read properties of undefined (reading 'credential')")
  | Some c => ret (default Js.Undefined (c !! "credential"))
  end.

(** [authorize(credentials, req)]; the request is not looked at.  [None]
    stands for [null]. *)
Definition authorize (W : World) (credentials : option (gmap string Js.Value))
  : M (option OneTapUser) :=
  if negb (env_truthy (process_env W) "NEXT_PUBLIC_AUTH_GOOGLE_ID") then
    emit (console_log "invalid google auth config") ;;
    ret None
  else
    token ← read_credential credentials;
    let url := tokeninfo_endpoint +:+ Js.to_string (Number_toString W) token in
    response ← call (call_fetch url) (fetch W url);
    if negb (ok response) then
      emit (console_log "Failed to verify token") ;;
      ret None
    else
      payload ← settle (json response);
      if negb (Js.truthy payload) then
        emit (console_log "invalid payload from token") ;;
        ret None
      else
        let email := Js.get payload "email" in
        let sub := Js.get payload "sub" in
        let given_name := Js.get payload "given_name" in
        let family_name := Js.get payload "family_name" in
        let email_verified := Js.get payload "email_verified" in
        let image := Js.get payload "picture" in
        if negb (Js.truthy email) then
          emit (console_log "invalid email in payload") ;;
          ret None
        else
          ret (Some {| id := sub;
                       name := Js.join (Number_toString W) " " [given_name; family_name];
                       user_email := email;
                       image := image;
                       emailVerified :=
                         if Js.truthy email_verified then Some (Date_now W) else None |}).

(** ** The provider registry *)

(** The configuration handed to [CredentialsProvider]. *)
Record CredentialsConfig : Type := mkCredentialsConfig {
  config_id : string;
  config_name : string;
  config_credentials : list (string * string);
  config_authorize : World -> option (gmap string Js.Value) -> M (option OneTapUser)
}.

(** A provider descriptor: which constructor of the framework was called, and
    with what. *)
Inductive Provider : Type :=
| CredentialsProvider (config : CredentialsConfig)
| GoogleProvider (clientId clientSecret : string)
| GitHubProvider (clientId clientSecret : string).

Definition one_tap_config : CredentialsConfig :=
  {| config_id := "google-one-tap";
     config_name := "google-one-tap";
     config_credentials := [("credential", "text")];
     config_authorize := authorize |}.

Definition env_get (env : gmap string string) (name : string) : string :=
  default "" (env !! name).

(** The module-level list, after the three conditional [push]es. *)
Definition providers (env : gmap string string) : list Provider :=
  let providers : list Provider := [] in
  (* Google One Tap Auth *)
  let providers :=
    if env_is env "NEXT_PUBLIC_AUTH_GOOGLE_ONE_TAP_ENABLED" "true"
       && env_truthy env "NEXT_PUBLIC_AUTH_GOOGLE_ID"
    then (providers ++ [CredentialsProvider one_tap_config])%list
    else providers in
  (* Google Auth *)
  let providers :=
    if env_is env "NEXT_PUBLIC_AUTH_GOOGLE_ENABLED" "true"
       && env_truthy env "AUTH_GOOGLE_ID"
       && env_truthy env "AUTH_GOOGLE_SECRET"
    then (providers ++ [GoogleProvider (env_get env "AUTH_GOOGLE_ID")
                                       (env_get env "AUTH_GOOGLE_SECRET")])%list
    else providers in
  (* Github Auth *)
  let providers :=
    if env_is env "NEXT_PUBLIC_AUTH_GITHUB_ENABLED" "true"
       && env_truthy env "AUTH_GITHUB_ID"
       && env_truthy env "AUTH_GITHUB_SECRET"
    then (providers ++ [GitHubProvider (env_get env "AUTH_GITHUB_ID")
                                       (env_get env "AUTH_GITHUB_SECRET")])%list
    else providers in
  providers.

(** ** The provider map *)

Record ProviderEntry : Type := mkEntry {
  entry_id : string;
  entry_name : string
}.

(** What the framework's constructor hands back for a descriptor: an object
    carrying [id] and [name], or a function that produces one. *)
Inductive ProviderValue : Type :=
| ProviderObject (data : ProviderEntry)
| ProviderFunction (make : unit -> ProviderEntry).

Definition normalize (provider : ProviderValue) : ProviderEntry :=
  match provider with
  | ProviderFunction make =>
      let providerData := make tt in
      {| entry_id := entry_id providerData; entry_name := entry_name providerData |}
  | ProviderObject data =>
      {| entry_id := entry_id data; entry_name := entry_name data |}
  end.

Section ProviderMap.

(** The framework's provider constructors, which are not part of this
    module. *)
Variable next_auth : Provider -> ProviderValue.

Definition providerMap (env : gmap string string) : list ProviderEntry :=
  List.filter (fun provider => negb (String.eqb (entry_id provider) "google-one-tap"))
    (List.map (fun provider => normalize (next_auth provider)) (providers env)).

End ProviderMap.

(** ** The callbacks *)

(** [signIn({ user, account, profile, email, credentials })] *)
Definition signIn (user account profile email credentials : Js.Value) : M bool :=
  let isAllowedToSignIn := true in
  if isAllowedToSignIn then ret true else ret false.

(** [redirect({ url, baseUrl })]; both are strings. *)
Definition redirect (W : World) (url baseUrl : string) : M string :=
  (* Allows relative callback URLs *)
  if String.prefix "/" url then ret (baseUrl +:+ url)
  else
    (* Allows callback URLs on the same origin *)
    origin ← settle (URL_origin W url);
    if String.eqb origin baseUrl then ret url
    else ret baseUrl.

(** [session({ session, token, user })]; the session is an object, which the
    callback updates and hands back. *)
Definition session (session : gmap string Js.Value) (token user : Js.Value)
  : M (gmap string Js.Value) :=
  if Js.truthy token && Js.truthy (Js.get token "user") && Js.truthy (Js.get token "user")
  then ret (<["user" := Js.get token "user"]> session)
  else ret session.

(** The projection of the saved user that [jwt] stores under [token.user]. *)
Definition user_projection (savedUser : User) : Js.Value :=
  Js.Obj (<["uuid" := uuid savedUser]>
         (<["email" := email savedUser]>
         (<["nickname" := nickname savedUser]>
         (<["avatar_url" := avatar_url savedUser]>
         (<["created_at" := created_at savedUser]> ∅))))).

(** [jwt({ token, user, account })]; the token is an object, which the
    callback updates and hands back. *)
Definition jwt (W : World) (token : gmap string Js.Value) (user account : Js.Value)
  : M (gmap string Js.Value) :=
  try_catch
    (if Js.truthy user && Js.truthy (Js.get user "email") && Js.truthy account then
       new_uuid ← call call_getUuid (getUuid W);
       now ← call call_getIsoTimestr (getIsoTimestr W);
       ip ← call call_getClientIp (getClientIp W);
       let dbUser :=
         {| uuid := Js.Str new_uuid;
            email := Js.get user "email";
            nickname := Js.or (Js.get user "name") (Js.Str "");
            avatar_url := Js.or (Js.get user "image") (Js.Str "");
            signin_type := Js.get account "type";
            signin_provider := Js.get account "provider";
            signin_openid := Js.get account "providerAccountId";
            created_at := Js.Str now;
            signin_ip := Js.Str ip |} in
       try_catch
         (savedUser ← call (call_saveUser dbUser) (saveUser W dbUser);
          ret (<["user" := user_projection savedUser]> token))
         (fun e => emit (console_error "save user failed:" e) ;; ret token)
     else ret token)
    (fun e => emit (console_error "jwt callback error:" e) ;; ret token).

(** ** A reference world for worked examples *)

Module Sample.

Definition is_lower (c : ascii) : bool :=
  let n := nat_of_ascii c in (97 <=? n)%nat && (n <=? 122)%nat.

Definition is_digit (c : ascii) : bool :=
  let n := nat_of_ascii c in (48 <=? n)%nat && (n <=? 57)%nat.

Definition is_host_char (c : ascii) : bool :=
  is_lower c || is_digit c || Ascii.eqb c "." || Ascii.eqb c "-".

(** The characters that end the authority of an http(s) URL. *)
Definition ends_authority (c : ascii) : bool :=
  Ascii.eqb c "/" || Ascii.eqb c "?" || Ascii.eqb c "#" || Ascii.eqb c "\".

Fixpoint all_chars (p : ascii -> bool) (s : string) : bool :=
  match s with
  | EmptyString => true
  | String c rest => p c && all_chars p rest
  end.

(** The longest prefix of [s] without a character satisfying [stop], and
    what follows it. *)
Fixpoint break_at (stop : ascii -> bool) (s : string) : string * string :=
  match s with
  | EmptyString => ("", "")
  | String c rest =>
      if stop c then ("", s)
      else let '(before, after) := break_at stop rest in (String c before, after)
  end.

Fixpoint strip_prefix (p s : string) : option string :=
  match p, s with
  | EmptyString, _ => Some s
  | String a p', String b s' => if Ascii.eqb a b then strip_prefix p' s' else None
  | String _ _, EmptyString => None
  end.

(** The first character of the label after the last dot, if that label is
    not empty. *)
Fixpoint last_label_start (current : option ascii) (host : string) : option ascii :=
  match host with
  | EmptyString => current
  | String c rest =>
      if Ascii.eqb c "." then last_label_start None rest
      else last_label_start (match current with
                             | None => Some c
                             | Some _ => current
                             end) rest
  end.

(** Host names of lower-case letters, digits, dots and hyphens whose last
    label starts with a letter (so that the host is not read as an IPv4
    address). *)
Definition valid_host (host : string) : bool :=
  negb (String.eqb host "")
  && all_chars is_host_char host
  && match last_label_start None host with
     | Some c => is_lower c
     | None => false
     end.

(** Ports of one to four digits without a leading zero. *)
Definition valid_port (port : string) : bool :=
  match port with
  | EmptyString => false
  | String c _ =>
      negb (Ascii.eqb c "0") && all_chars is_digit port && (String.length port <=? 4)%nat
  end.

Definition invalid_url {A} : outcome A := Thrown (TypeError "Invalid URL").

Definition origin_after (scheme default_port rest : string) : outcome string :=
  let '(authority, _) := break_at ends_authority rest in
  let '(host, after_host) := break_at (Ascii.eqb ":") authority in
  if valid_host host then
    match after_host with
    | EmptyString => Returned (scheme +:+ "://" +:+ host)
    | String _ port =>
        if String.eqb port "" || String.eqb port default_port then
          Returned (scheme +:+ "://" +:+ host)
        else if valid_port port then
          Returned (scheme +:+ "://" +:+ host +:+ ":" +:+ port)
        else invalid_url
    end
  else invalid_url.

(** [new URL(url).origin] on the URLs of the examples: [http] and [https]
    URLs in lower case whose authority is a host name with an optional
    port.  Every other string is reported as not parseable, which is
    coarser than the URL Standard; only the examples of this file depend on
    this definition. *)
Definition URL_origin (url : string) : outcome string :=
  match strip_prefix "https://" url with
  | Some rest => origin_after "https" "443" rest
  | None =>
      match strip_prefix "http://" url with
      | Some rest => origin_after "http" "80" rest
      | None => invalid_url
      end
  end.

(** Number::toString on the numbers of the examples: integral doubles below
    10^21 are written in decimal, as the language does.  The digits of other
    finite numbers are not reproduced (the empty string stands for them);
    only the examples of this file depend on this definition. *)
Definition Number_toString (f : float) : string :=
  match Prim2SF f with
  | S754_nan => "NaN"
  | S754_zero _ => "0"
  | S754_infinity false => "Infinity"
  | S754_infinity true => "-Infinity"
  | S754_finite negative m e =>
      let magnitude :=
        if (0 <=? e)%Z then Some (Z.pos m * 2 ^ e)%Z
        else if (Z.pos m mod 2 ^ (- e) =? 0)%Z then Some (Z.pos m / 2 ^ (- e))%Z
        else None in
      match magnitude with
      | Some z =>
          if (z <? 10 ^ 21)%Z then
            (if negative then "-" else "") +:+ NilZero.string_of_int (Z.to_int z)
          else ""
      | None => ""
      end
  end.

Definition env_all : gmap string string :=
  list_to_map
    [("NEXT_PUBLIC_AUTH_GOOGLE_ONE_TAP_ENABLED", "true");
     ("NEXT_PUBLIC_AUTH_GOOGLE_ID", "web.apps.googleusercontent.com");
     ("NEXT_PUBLIC_AUTH_GOOGLE_ENABLED", "true");
     ("AUTH_GOOGLE_ID", "web.apps.googleusercontent.com");
     ("AUTH_GOOGLE_SECRET", "g-secret");
     ("NEXT_PUBLIC_AUTH_GITHUB_ENABLED", "true");
     ("AUTH_GITHUB_ID", "Iv1.0123456789abcdef");
     ("AUTH_GITHUB_SECRET", "gh-secret")].

Definition env_github_only : gmap string string :=
  list_to_map
    [("NEXT_PUBLIC_AUTH_GITHUB_ENABLED", "true");
     ("AUTH_GITHUB_ID", "Iv1.0123456789abcdef");
     ("AUTH_GITHUB_SECRET", "gh-secret")].

Definition payload : Js.Value :=
  Js.Obj (list_to_map
    [("sub", Js.Str "110169484474386276334");
     ("email", Js.Str "ada@example.com");
     ("email_verified", Js.Str "true");
     ("given_name", Js.Str "Ada");
     ("family_name", Js.Str "Lovelace");
     ("picture", Js.Str "https://lh3.googleusercontent.com/a/ada")]).

Definition credentials : gmap string Js.Value :=
  {[ "credential" := Js.Str "eyJhbGciOi.eyJzdWIiOi.c2lnbmF0dXJl" ]}.

(** A world with the given environment, token verification endpoint and
    persistence service; the other collaborators answer. *)
Definition world (env : gmap string string) (fetch : string -> outcome Response)
    (saveUser : User -> outcome User) : World :=
  mkWorld env URL_origin Number_toString fetch
    (* Date_now *) 1767225600000
    (* getUuid *) (Returned "0b7e3c1a-5d2f-4a7e-9c66-3f1d2a4b5c6d")
    (* getIsoTimestr *) (Returned "2026-01-01T00:00:00.000Z")
    (* getClientIp *) (Returned "203.0.113.7")
    saveUser.

Definition answers (body : outcome Js.Value) (url : string) : outcome Response :=
  Returned {| ok := true; json := body |}.

Definition refuses (url : string) : outcome Response :=
  Returned {| ok := false; json := Returned Js.Null |}.

Definition unreachable (url : string) : outcome Response :=
  Thrown (Failure "fetch failed").

Definition saves (dbUser : User) : outcome User := Returned dbUser.

Definition database_down (dbUser : User) : outcome User :=
  Thrown (Failure "connect ECONNREFUSED").

(** The provider constructors as the framework's provider modules define
    them: the credentials constructor keeps its own default [id] and [name]
    and stores the given configuration aside. *)
Definition next_auth (provider : Provider) : ProviderValue :=
  match provider with
  | CredentialsProvider _ => ProviderObject {| entry_id := "credentials"; entry_name := "Credentials" |}
  | GoogleProvider _ _ => ProviderObject {| entry_id := "google"; entry_name := "Google" |}
  | GitHubProvider _ _ => ProviderObject {| entry_id := "github"; entry_name := "GitHub" |}
  end.

Definition online : World := world env_all (answers (Returned payload)) saves.

Definition network_offline : World := world env_all unreachable saves.

Definition database_offline : World :=
  world env_all (answers (Returned payload)) database_down.

(** The characters of a serialized origin after its scheme. *)
Definition is_origin_char (c : ascii) : bool := is_host_char c || Ascii.eqb c ":".

Definition origin_shape (origin : string) : bool :=
  match strip_prefix "https://" origin with
  | Some rest => all_chars is_origin_char rest
  | None =>
      match strip_prefix "http://" origin with
      | Some rest => all_chars is_origin_char rest
      | None => false
      end
  end.

Definition session_object : gmap string Js.Value :=
  {[ "expires" := Js.Str "2026-02-01T00:00:00.000Z" ]}.

Definition token_before_sign_in : Js.Value :=
  Js.Obj {[ "sub" := Js.Str "110169484474386276334" ]}.

Definition token_after_sign_in : Js.Value :=
  Js.Obj (<["user" := Js.Obj {[ "uuid" := Js.Str "0b7e3c1a-5d2f-4a7e-9c66-3f1d2a4b5c6d" ]}]>
            {[ "sub" := Js.Str "110169484474386276334" ]}).

Definition jwt_token : gmap string Js.Value :=
  {[ "sub" := Js.Str "583231" ]}.

Definition jwt_token_with_user : gmap string Js.Value :=
  <["user" := Js.Obj {[ "uuid" := Js.Str "0b7e3c1a-5d2f-4a7e-9c66-3f1d2a4b5c6d" ]}]> jwt_token.

Definition github_user : Js.Value :=
  Js.Obj (list_to_map
    [("id", Js.Str "583231");
     ("name", Js.Str "Ada Lovelace");
     ("email", Js.Str "ada@example.com");
     ("image", Js.Null)]).

Definition github_account : Js.Value :=
  Js.Obj (list_to_map
    [("type", Js.Str "oauth");
     ("provider", Js.Str "github");
     ("providerAccountId", Js.Str "583231")]).

(** A verification response whose payload lacks [email]. *)
Definition payload_without_email : Js.Value :=
  Js.Obj (list_to_map
    [("sub", Js.Str "110169484474386276334");
     ("given_name", Js.Str "Ada");
     ("family_name", Js.Str "Lovelace")]).

Definition response_without_email : Response :=
  {| ok := true; json := Returned payload_without_email |}.

Definition online_without_email : World :=
  world env_all (answers (Returned payload_without_email)) saves.

(** The record [jwt] hands to [saveUser] for [github_user] in these worlds. *)
Definition github_record : User :=
  {| uuid := Js.Str "0b7e3c1a-5d2f-4a7e-9c66-3f1d2a4b5c6d";
     email := Js.Str "ada@example.com";
     nickname := Js.Str "Ada Lovelace";
     avatar_url := Js.Str "";
     signin_type := Js.Str "oauth";
     signin_provider := Js.Str "github";
     signin_openid := Js.Str "583231";
     created_at := Js.Str "2026-01-01T00:00:00.000Z";
     signin_ip := Js.Str "203.0.113.7" |}.

(** The record the persistence service already holds for the user of
    [github_user], and a service that answers with it. *)
Definition stored_record : User :=
  {| uuid := Js.Str "7c9e6679-7425-40de-944b-e07fc1f90ae7";
     email := Js.Str "ada@example.com";
     nickname := Js.Str "ada";
     avatar_url := Js.Str "https://avatars.example.com/ada.png";
     signin_type := Js.Str "oauth";
     signin_provider := Js.Str "google";
     signin_openid := Js.Str "110169484474386276334";
     created_at := Js.Str "2025-06-01T08:30:00.000Z";
     signin_ip := Js.Str "198.51.100.23" |}.

Definition finds_stored (dbUser : User) : outcome User := Returned stored_record.

Definition returning_user : World :=
  world env_all (answers (Returned payload)) finds_stored.

(** A world whose client-IP lookup fails. *)
Definition no_request_scope : World :=
  mkWorld env_all URL_origin Number_toString (answers (Returned payload))
    1767225600000
    (Returned "0b7e3c1a-5d2f-4a7e-9c66-3f1d2a4b5c6d")
    (Returned "2026-01-01T00:00:00.000Z")
    (Thrown (Failure "headers was called outside a request scope"))
    saves.

(** A user without name and image. *)
Definition bare_user : Js.Value :=
  Js.Obj {[ "email" := Js.Str "ada@example.com" ]}.

(** What the token-verification endpoint answers for an address that was
    not confirmed: the flag comes as text. *)
Definition payload_unverified : Js.Value :=
  Js.Obj (list_to_map
    [("sub", Js.Str "110169484474386276334");
     ("email", Js.Str "ada@example.com");
     ("email_verified", Js.Str "false")]).

Definition online_unverified : World :=
  world env_all (answers (Returned payload_unverified)) saves.

(** A body that is valid JSON but not an object. *)
Definition online_text_body : World :=
  world env_all (answers (Returned (Js.Str "ok"))) saves.

(** [env_all] with variables the registry does not read. *)
Definition env_deployed : gmap string string :=
  <["NODE_ENV" := "production"]> (<["AUTH_SECRET" := "s3cr3t"]> env_all).

End Sample.

(** * The vocabulary of the properties *)

(** A run ends by returning, or by throwing. *)
Definition never_throws {A} (m : M A) : Prop := exists a, result m = Returned a.

Definition throws {A} (m : M A) : Prop := exists e, result m = Thrown e.

(** [url] parses on its own as a URL, whose origin is [origin]. *)
Definition absolute_url (W : World) (url origin : string) : Prop :=
  String.prefix "/" url = false /\ URL_origin W url = Returned origin.

(** [baseUrl] is the origin some URL serializes to. *)
Definition origin_string (W : World) (baseUrl : string) : Prop :=
  exists url, URL_origin W url = Returned baseUrl.

(** [token && token.user] *)
Definition token_user_present (token : Js.Value) : bool :=
  Js.truthy token && Js.truthy (Js.get token "user").

(** [user && user.email && account] *)
Definition first_sign_in (user account : Js.Value) : bool :=
  Js.truthy user && Js.truthy (Js.get user "email") && Js.truthy account.

(** The address [authorize] fetches for the credentials [c]. *)
Definition verification_url (W : World) (c : gmap string Js.Value) : string :=
  tokeninfo_endpoint
  +:+ Js.to_string (Number_toString W) (default Js.Undefined (c !! "credential")).

(** The user object built from a verified payload. *)
Definition one_tap_user (W : World) (payload : Js.Value) : OneTapUser :=
  {| id := Js.get payload "sub";
     name := Js.join_element (Number_toString W) (Js.get payload "given_name")
             +:+ " "
             +:+ Js.join_element (Number_toString W) (Js.get payload "family_name");
     user_email := Js.get payload "email";
     image := Js.get payload "picture";
     emailVerified :=
       if Js.truthy (Js.get payload "email_verified") then Some (Date_now W) else None |}.

(** The verification call was made and was answered by [response]. *)
Definition verification_response (W : World)
    (credentials : option (gmap string Js.Value)) (response : Response) : Prop :=
  exists url, In (call_fetch url) (trace (authorize W credentials))
              /\ fetch W url = Returned response.

(** Nothing [authorize] awaits is rejected: the client id is not configured,
    or [credentials] is defined, the verification fetch is answered and, when
    the answer is ok, its JSON body parses. *)
Definition verification_settles (W : World)
    (credentials : option (gmap string Js.Value)) : Prop :=
  env_truthy (process_env W) "NEXT_PUBLIC_AUTH_GOOGLE_ID" = false
  \/ exists c response,
       credentials = Some c
       /\ env_truthy (process_env W) "NEXT_PUBLIC_AUTH_GOOGLE_ID" = true
       /\ fetch W (verification_url W c) = Returned response
       /\ (ok response = true -> exists payload, json response = Returned payload).

(** The ways the specification lists for [authorize] to fail. *)
Inductive one_tap_failure (W : World) (credentials : option (gmap string Js.Value))
  : Prop :=
| no_client_id :
    env_truthy (process_env W) "NEXT_PUBLIC_AUTH_GOOGLE_ID" = false ->
    one_tap_failure W credentials
| verification_not_ok response :
    verification_response W credentials response ->
    ok response = false ->
    one_tap_failure W credentials
| no_payload response payload :
    verification_response W credentials response ->
    json response = Returned payload ->
    Js.truthy payload = false ->
    one_tap_failure W credentials
| no_email response payload :
    verification_response W credentials response ->
    json response = Returned payload ->
    Js.truthy (Js.get payload "email") = false ->
    one_tap_failure W credentials.

(** The sign-in methods the module supports, in registration order. *)
Inductive Method : Type := OneTap | Google | GitHub.

(** The methods in the order the module registers them. *)
Definition methods : list Method := [OneTap; Google; GitHub].

Definition method_of (provider : Provider) : Method :=
  match provider with
  | CredentialsProvider _ => OneTap
  | GoogleProvider _ _ => Google
  | GitHubProvider _ _ => GitHub
  end.

Definition feature_flag (m : Method) : string :=
  match m with
  | OneTap => "NEXT_PUBLIC_AUTH_GOOGLE_ONE_TAP_ENABLED"
  | Google => "NEXT_PUBLIC_AUTH_GOOGLE_ENABLED"
  | GitHub => "NEXT_PUBLIC_AUTH_GITHUB_ENABLED"
  end.

Definition required_variables (m : Method) : list string :=
  match m with
  | OneTap => ["NEXT_PUBLIC_AUTH_GOOGLE_ID"]
  | Google => ["AUTH_GOOGLE_ID"; "AUTH_GOOGLE_SECRET"]
  | GitHub => ["AUTH_GITHUB_ID"; "AUTH_GITHUB_SECRET"]
  end.

(** A method is enabled when its feature flag equals "true" and each of its
    required variables is set (to a value other than the empty string). *)
Definition enabled (env : gmap string string) (m : Method) : bool :=
  env_is env (feature_flag m) "true"
  && forallb (env_truthy env) (required_variables m).

(** The descriptor of a method under an environment. *)
Definition descriptor (env : gmap string string) (m : Method) : Provider :=
  match m with
  | OneTap => CredentialsProvider one_tap_config
  | Google => GoogleProvider (env_get env "AUTH_GOOGLE_ID") (env_get env "AUTH_GOOGLE_SECRET")
  | GitHub => GitHubProvider (env_get env "AUTH_GITHUB_ID") (env_get env "AUTH_GITHUB_SECRET")
  end.

(** The variables the registry reads. *)
Definition relevant_variables : list string :=
  List.concat (List.map (fun m => feature_flag m :: required_variables m) methods).

(** None of the variables [names] is set. *)
Definition unset (env : gmap string string) (names : list string) : Prop :=
  Forall (fun name => env_truthy env name = false) names.

(** The record [jwt] builds for [saveUser] from the signed-in user, the
    account and what the three helpers gave. *)
Definition candidate_user (user account : Js.Value) (new_uuid now ip : string) : User :=
  {| uuid := Js.Str new_uuid;
     email := Js.get user "email";
     nickname := Js.or (Js.get user "name") (Js.Str "");
     avatar_url := Js.or (Js.get user "image") (Js.Str "");
     signin_type := Js.get account "type";
     signin_provider := Js.get account "provider";
     signin_openid := Js.get account "providerAccountId";
     created_at := Js.Str now;
     signin_ip := Js.Str ip |}.

(** One of the three helpers [jwt] calls before [saveUser] throws [e], the
    ones before it having answered. *)
Definition helper_failure (W : World) (e : Exn) : Prop :=
  getUuid W = Thrown e
  \/ (exists new_uuid, getUuid W = Returned new_uuid /\ getIsoTimestr W = Thrown e)
  \/ (exists new_uuid now, getUuid W = Returned new_uuid
                            /\ getIsoTimestr W = Returned now
                            /\ getClientIp W = Thrown e).

(** The properties of the object stored under [token.user]. *)
Definition projected_properties : list string :=
  ["uuid"; "email"; "nickname"; "avatar_url"; "created_at"].

(** The messages [authorize] writes to the console. *)
Definition authorize_messages : list string :=
  ["invalid google auth config"; "Failed to verify token";
   "invalid payload from token"; "invalid email in payload"].

(** [v] is [undefined] or [null]. *)
Definition nullish (v : Js.Value) : bool :=
  match v with
  | Js.Undefined | Js.Null => true
  | _ => false
  end.

(** The verification call was answered by an ok response whose body parsed
    to [payload], an object (or other truthy value) with an email. *)
Definition verified (W : World) (credentials : option (gmap string Js.Value))
    (payload : Js.Value) : Prop :=
  exists response,
    verification_response W credentials response
    /\ ok response = true
    /\ json response = Returned payload
    /\ Js.truthy payload = true
    /\ Js.truthy (Js.get payload "email") = true.

(** The variable [name] is set to the non-empty text [value]. *)
Definition set_to (env : gmap string string) (name value : string) : Prop :=
  env !! name = Some value /\ value <> "".

(** Two environments give the registry the same variables. *)
Definition same_configuration (env env' : gmap string string) : Prop :=
  forall name, In name relevant_variables -> env !! name = env' !! name.

(** * Properties *)

(** ** Running computations *)

(** Unfolds the monad so that a run shows its events and its outcome. *)
Ltac run :=
  unfold mbind, M_bind, bind, try_catch, call, emit, settle, ret, throw,
    trace, result in *;
  cbn [fst snd app] in *.

Lemma bind_returned {A B} (t : list Event) (a : A) (k : A -> M B) :
  bind (t, Returned a) k = ((t ++ trace (k a))%list, result (k a)).
Proof. unfold bind, trace, result. by destruct (k a). Qed.

(** ** [redirect] *)

Lemma redirect_absolute W url baseUrl origin :
  absolute_url W url origin ->
  redirect W url baseUrl = ret (if String.eqb origin baseUrl then url else baseUrl).
Proof.
  intros [Hrel Hurl]. unfold redirect. rewrite Hrel.
  unfold mbind, M_bind, settle. rewrite Hurl, bind_returned.
  by destruct (String.eqb origin baseUrl).
Qed.

(** C1: [redirect] answers [baseUrl] followed by [url] when [url] starts
    with a slash, [url] itself when it is an absolute URL whose origin is
    [baseUrl], and [baseUrl] for every other absolute URL. *)
Theorem redirect_rule (W : World) (url baseUrl : string) :
  (String.prefix "/" url = true -> redirect W url baseUrl = ret (baseUrl +:+ url))
  /\ (forall origin, absolute_url W url origin -> origin = baseUrl ->
       redirect W url baseUrl = ret url)
  /\ (forall origin, absolute_url W url origin -> origin <> baseUrl ->
       redirect W url baseUrl = ret baseUrl).
Proof.
  split; [| split].
  - intros Hrel. unfold redirect. by rewrite Hrel.
  - intros origin Habs ->. rewrite (redirect_absolute _ _ _ _ Habs).
    by rewrite String.eqb_refl.
  - intros origin Habs Hne. rewrite (redirect_absolute _ _ _ _ Habs).
    apply String.eqb_neq in Hne. by rewrite Hne.
Qed.

Lemma redirect_rule_witness :
  redirect Sample.online "/dashboard" "https://app.example.com"
    = ret "https://app.example.com/dashboard"
  /\ redirect Sample.online "https://app.example.com/x" "https://app.example.com"
    = ret "https://app.example.com/x"
  /\ redirect Sample.online "https://evil.example.com/x" "https://app.example.com"
    = ret "https://app.example.com".
Proof.
  split; [| split].
  - apply (proj1 (redirect_rule Sample.online "/dashboard" "https://app.example.com")).
    reflexivity.
  - apply (proj1 (proj2 (redirect_rule Sample.online "https://app.example.com/x"
                           "https://app.example.com")) "https://app.example.com").
    + split; reflexivity.
    + reflexivity.
  - apply (proj2 (proj2 (redirect_rule Sample.online "https://evil.example.com/x"
                           "https://app.example.com")) "https://evil.example.com").
    + split; reflexivity.
    + discriminate.
Defined.

(** *** The same-origin test *)

Lemma all_chars_app (p : ascii -> bool) (a b : string) :
  Sample.all_chars p (a +:+ b) = Sample.all_chars p a && Sample.all_chars p b.
Proof.
  induction a as [| c a IH]; [done |].
  change (String c a +:+ b) with (String c (a +:+ b)). cbn.
  rewrite IH. by destruct (p c).
Qed.

Lemma all_chars_weaken (p q : ascii -> bool) (s : string) :
  (forall c, p c = true -> q c = true) ->
  Sample.all_chars p s = true -> Sample.all_chars q s = true.
Proof.
  intros Hpq. induction s as [| c s IH]; cbn; [done |].
  intros [Hc Hs]%andb_prop. by rewrite (Hpq _ Hc), IH.
Qed.

Lemma host_char_is_origin_char c :
  Sample.is_host_char c = true -> Sample.is_origin_char c = true.
Proof. unfold Sample.is_origin_char. by intros ->. Qed.

Lemma digit_is_origin_char c :
  Sample.is_digit c = true -> Sample.is_origin_char c = true.
Proof.
  unfold Sample.is_origin_char, Sample.is_host_char. intros ->.
  by rewrite orb_true_r.
Qed.

Lemma origin_after_shape scheme default_port rest origin :
  scheme = "https" \/ scheme = "http" ->
  Sample.origin_after scheme default_port rest = Returned origin ->
  Sample.origin_shape origin = true.
Proof.
  intros Hscheme. unfold Sample.origin_after.
  destruct (Sample.break_at Sample.ends_authority rest) as [authority ?].
  destruct (Sample.break_at (Ascii.eqb ":") authority) as [host after_host].
  destruct (Sample.valid_host host) eqn:Hhost; [| discriminate].
  apply andb_prop in Hhost as [[_ Hchars]%andb_prop _].
  apply (all_chars_weaken _ _ _ host_char_is_origin_char) in Hchars.
  assert (Hbare : Sample.origin_shape (scheme +:+ "://" +:+ host) = true)
    by (destruct Hscheme as [-> | ->]; exact Hchars).
  destruct after_host as [| colon port]; [by intros [= <-] |].
  destruct (String.eqb port "" || String.eqb port default_port); [by intros [= <-] |].
  destruct (Sample.valid_port port) eqn:Hport; [| discriminate].
  intros [= <-].
  assert (Hdigits : Sample.all_chars Sample.is_origin_char port = true).
  { unfold Sample.valid_port in Hport. destruct port as [| d port]; [discriminate |].
    apply andb_prop in Hport as [[_ Hd]%andb_prop _].
    by apply (all_chars_weaken _ _ _ digit_is_origin_char) in Hd. }
  destruct Hscheme as [-> | ->];
    change (Sample.all_chars Sample.is_origin_char (host +:+ String ":" port) = true);
    by rewrite all_chars_app, Hchars.
Qed.

(** The origins the reference parser produces hold no slash after the
    scheme, no query and no fragment. *)
Lemma sample_origin_shape url origin :
  Sample.URL_origin url = Returned origin -> Sample.origin_shape origin = true.
Proof.
  unfold Sample.URL_origin.
  destruct (Sample.strip_prefix "https://" url) as [rest |].
  - apply origin_after_shape. by left.
  - destruct (Sample.strip_prefix "http://" url) as [rest |]; [| discriminate].
    apply origin_after_shape. by right.
Qed.

(** C10: the same-origin test of [redirect] compares the origin of the parsed
    [url] with [baseUrl] as a string; when [baseUrl] is not itself an origin
    string, every absolute [url] is answered with [baseUrl], whatever its
    origin. *)
Theorem redirect_base_not_origin (W : World) (baseUrl : string) :
  (forall url origin, absolute_url W url origin ->
     redirect W url baseUrl = ret (if String.eqb origin baseUrl then url else baseUrl))
  /\ (~ origin_string W baseUrl ->
      forall url origin, absolute_url W url origin -> redirect W url baseUrl = ret baseUrl).
Proof.
  split.
  - intros url origin. apply redirect_absolute.
  - intros Hbase url origin Habs. rewrite (redirect_absolute _ _ _ _ Habs).
    destruct (String.eqb origin baseUrl) eqn:Heq; [| done].
    apply String.eqb_eq in Heq as ->. destruct Hbase.
    exists url. apply Habs.
Qed.

Lemma redirect_base_not_origin_witness :
  redirect Sample.online "https://app.example.com/x" "https://app.example.com/"
    = ret "https://app.example.com/"
  /\ redirect Sample.online "https://app.example.com/x" "https://app.example.com/app"
    = ret "https://app.example.com/app".
Proof.
  split.
  - apply (proj2 (redirect_base_not_origin Sample.online "https://app.example.com/"))
      with (origin := "https://app.example.com").
    + intros [url Hurl]. apply sample_origin_shape in Hurl.
      vm_compute in Hurl. discriminate.
    + split; reflexivity.
  - apply (proj1 (redirect_base_not_origin Sample.online "https://app.example.com/app")
             "https://app.example.com/x" "https://app.example.com").
    split; reflexivity.
Defined.

(** ** [session] *)

(** C9: when [token.user] is present, [session] answers the given session
    with its [user] property set to [token.user]; otherwise it answers the
    given session.  In both cases every other property is as it was. *)
Theorem session_projects_token_user
    (s : gmap string Js.Value) (token user : Js.Value) :
  (token_user_present token = true ->
     session s token user = ret (<["user" := Js.get token "user"]> s))
  /\ (token_user_present token = false -> session s token user = ret s)
  /\ (forall s' k, result (session s token user) = Returned s' ->
        k <> "user" -> s' !! k = s !! k).
Proof.
  unfold token_user_present, session. split; [| split].
  - intros Hpresent. rewrite Hpresent.
    by apply andb_prop in Hpresent as [_ ->].
  - by intros ->.
  - intros s' k Hrun Hk.
    destruct (Js.truthy token && Js.truthy (Js.get token "user")); cbn in Hrun.
    + destruct (Js.truthy (Js.get token "user")); cbn in Hrun;
        injection Hrun as <-; [by apply lookup_insert_ne | done].
    + by injection Hrun as <-.
Qed.

Lemma session_projects_token_user_witness :
  session Sample.session_object Sample.token_after_sign_in Js.Undefined
    = ret (<["user" := Js.get Sample.token_after_sign_in "user"]> Sample.session_object)
  /\ session Sample.session_object Sample.token_before_sign_in Js.Undefined
    = ret Sample.session_object
  /\ (<["user" := Js.get Sample.token_after_sign_in "user"]> Sample.session_object)
       !! "expires" = Sample.session_object !! "expires".
Proof.
  split; [| split].
  - apply (proj1 (session_projects_token_user Sample.session_object
                    Sample.token_after_sign_in Js.Undefined)).
    reflexivity.
  - apply (proj1 (proj2 (session_projects_token_user Sample.session_object
                           Sample.token_before_sign_in Js.Undefined))).
    reflexivity.
  - apply (proj2 (proj2 (session_projects_token_user Sample.session_object
                           Sample.token_after_sign_in Js.Undefined))).
    + reflexivity.
    + discriminate.
Defined.

(** ** [jwt] *)

Lemma jwt_skipped W token user account :
  first_sign_in user account = false -> jwt W token user account = ret token.
Proof. unfold first_sign_in, jwt. by intros ->. Qed.

(** What [jwt] does once the guard has passed, spelled out by the outcome
    of each collaborator. *)
Lemma jwt_first_sign_in W token user account :
  first_sign_in user account = true ->
  jwt W token user account =
    match getUuid W with
    | Thrown e => ([call_getUuid; console_error "jwt callback error:" e], Returned token)
    | Returned new_uuid =>
      match getIsoTimestr W with
      | Thrown e =>
          ([call_getUuid; call_getIsoTimestr; console_error "jwt callback error:" e],
           Returned token)
      | Returned now =>
        match getClientIp W with
        | Thrown e =>
            ([call_getUuid; call_getIsoTimestr; call_getClientIp;
              console_error "jwt callback error:" e], Returned token)
        | Returned ip =>
            let dbUser :=
              {| uuid := Js.Str new_uuid;
                 email := Js.get user "email";
                 nickname := Js.or (Js.get user "name") (Js.Str "");
                 avatar_url := Js.or (Js.get user "image") (Js.Str "");
                 signin_type := Js.get account "type";
                 signin_provider := Js.get account "provider";
                 signin_openid := Js.get account "providerAccountId";
                 created_at := Js.Str now;
                 signin_ip := Js.Str ip |} in
            match saveUser W dbUser with
            | Thrown e =>
                ([call_getUuid; call_getIsoTimestr; call_getClientIp;
                  call_saveUser dbUser; console_error "save user failed:" e],
                 Returned token)
            | Returned savedUser =>
                ([call_getUuid; call_getIsoTimestr; call_getClientIp;
                  call_saveUser dbUser],
                 Returned (<["user" := user_projection savedUser]> token))
            end
        end
      end
    end.
Proof.
  unfold first_sign_in, jwt. intros ->.
  destruct (getUuid W) as [new_uuid | e]; [| done].
  destruct (getIsoTimestr W) as [now | e]; [| done].
  destruct (getClientIp W) as [ip | e]; [| done].
  run. by destruct (saveUser W _).
Qed.

(** C4: when [user], [user.email] and [account] are present and the call to
    [saveUser] throws, [jwt] logs that error and still returns the token it
    was given, with nothing attached to it. *)
Theorem jwt_save_failure (W : World) (token : gmap string Js.Value)
    (user account : Js.Value) (dbUser : User) (e : Exn) :
  first_sign_in user account = true ->
  In (call_saveUser dbUser) (trace (jwt W token user account)) ->
  saveUser W dbUser = Thrown e ->
  result (jwt W token user account) = Returned token
  /\ last (trace (jwt W token user account)) = Some (console_error "save user failed:" e).
Proof.
  intros Hguard Hcall Hsave. rewrite (jwt_first_sign_in _ _ _ _ Hguard) in *.
  destruct (getUuid W) as [new_uuid | e1];
    [| cbn in Hcall; intuition discriminate].
  destruct (getIsoTimestr W) as [now | e1];
    [| cbn in Hcall; intuition discriminate].
  destruct (getClientIp W) as [ip | e1];
    [| cbn in Hcall; intuition discriminate].
  cbn zeta in *.
  destruct (saveUser W _) as [savedUser | e1] eqn:Hsaved; cbn in Hcall;
    destruct Hcall as [? | [? | [? | [Hdb | Hrest]]]]; try discriminate;
    try (injection Hdb as <-; rewrite Hsaved in Hsave).
  - discriminate.
  - destruct Hrest.
  - by injection Hsave as <-.
  - destruct Hrest as [? | []]. discriminate.
Qed.

Lemma jwt_save_failure_witness :
  result (jwt Sample.database_offline Sample.jwt_token Sample.github_user
            Sample.github_account)
    = Returned Sample.jwt_token
  /\ last (trace (jwt Sample.database_offline Sample.jwt_token Sample.github_user
                    Sample.github_account))
    = Some (console_error "save user failed:" (Failure "connect ECONNREFUSED")).
Proof.
  apply (jwt_save_failure Sample.database_offline Sample.jwt_token Sample.github_user
           Sample.github_account Sample.github_record).
  - reflexivity.
  - vm_compute. tauto.
  - reflexivity.
Defined.

(** C5: [jwt] calls [saveUser] only when [user], [user.email] and [account]
    are all present, and then with a record built from them; in every other
    invocation it does nothing and returns the token as it was given. *)
Theorem jwt_guard (W : World) (token : gmap string Js.Value)
    (user account : Js.Value) :
  (forall dbUser, In (call_saveUser dbUser) (trace (jwt W token user account)) ->
     (Js.truthy user = true /\ Js.truthy (Js.get user "email") = true
      /\ Js.truthy account = true)
     /\ email dbUser = Js.get user "email"
     /\ signin_type dbUser = Js.get account "type"
     /\ signin_provider dbUser = Js.get account "provider"
     /\ signin_openid dbUser = Js.get account "providerAccountId")
  /\ (first_sign_in user account = false -> jwt W token user account = ret token).
Proof.
  split; [| apply jwt_skipped].
  intros dbUser Hcall.
  destruct (first_sign_in user account) eqn:Hguard.
  - split.
    { unfold first_sign_in in Hguard.
      by apply andb_prop in Hguard as [[? ?]%andb_prop ?]. }
    rewrite (jwt_first_sign_in _ _ _ _ Hguard) in Hcall.
    destruct (getUuid W); [| cbn in Hcall; intuition discriminate].
    destruct (getIsoTimestr W); [| cbn in Hcall; intuition discriminate].
    destruct (getClientIp W); [| cbn in Hcall; intuition discriminate].
    cbn zeta in Hcall.
    destruct (saveUser W _); cbn in Hcall;
      destruct Hcall as [? | [? | [? | [Hdb | Hrest]]]]; try discriminate;
      try (by injection Hdb as <-); try (by destruct Hrest);
      destruct Hrest as [? | []]; discriminate.
  - rewrite (jwt_skipped _ _ _ _ Hguard) in Hcall. destruct Hcall.
Qed.

Lemma jwt_guard_witness :
  jwt Sample.online Sample.jwt_token_with_user Js.Undefined Js.Undefined
    = ret Sample.jwt_token_with_user
  /\ (Js.truthy Sample.github_user = true
      /\ Js.truthy (Js.get Sample.github_user "email") = true
      /\ Js.truthy Sample.github_account = true).
Proof.
  split.
  - apply (proj2 (jwt_guard Sample.online Sample.jwt_token_with_user
                    Js.Undefined Js.Undefined)).
    reflexivity.
  - apply (proj1 (jwt_guard Sample.online Sample.jwt_token Sample.github_user
                    Sample.github_account) Sample.github_record).
    vm_compute. tauto.
Defined.

(** ** Google One Tap: [authorize] *)

(** [authorize] spelled out by the outcome of each step. *)
Lemma authorize_run W credentials :
  authorize W credentials =
    if env_truthy (process_env W) "NEXT_PUBLIC_AUTH_GOOGLE_ID" then
      match credentials with
      | None =>
          ([], Thrown (TypeError "Cannot read properties of undefined (reading 'credential')"))
      | Some c =>
          let url := verification_url W c in
          match fetch W url with
          | Thrown e => ([call_fetch url], Thrown e)
          | Returned response =>
              if ok response then
                match json response with
                | Thrown e => ([call_fetch url], Thrown e)
                | Returned payload =>
                    if Js.truthy payload then
                      if Js.truthy (Js.get payload "email") then
                        ([call_fetch url], Returned (Some (one_tap_user W payload)))
                      else
                        ([call_fetch url; console_log "invalid email in payload"],
                         Returned None)
                    else
                      ([call_fetch url; console_log "invalid payload from token"],
                       Returned None)
                end
              else ([call_fetch url; console_log "Failed to verify token"], Returned None)
          end
      end
    else ([console_log "invalid google auth config"], Returned None).
Proof.
  unfold authorize, verification_url, one_tap_user, Js.join.
  destruct (env_truthy _ _); [| done].
  destruct credentials as [c |]; [| done].
  unfold read_credential. run. cbn [negb].
  destruct (fetch W _) as [response | e]; [| done].
  destruct (ok response); [| done]. cbn [negb].
  destruct (json response) as [payload | e]; [| done].
  destruct (Js.truthy payload); [| done]. cbn [negb].
  by destruct (Js.truthy (Js.get payload "email")).
Qed.

Lemma verification_response_inv W credentials response :
  verification_response W credentials response ->
  env_truthy (process_env W) "NEXT_PUBLIC_AUTH_GOOGLE_ID" = true
  /\ exists c, credentials = Some c /\ fetch W (verification_url W c) = Returned response.
Proof.
  intros (url & Hcall & Hfetch). rewrite authorize_run in Hcall.
  destruct (env_truthy _ _); [| cbn in Hcall; intuition discriminate].
  split; [done |].
  destruct credentials as [c |]; [| destruct Hcall].
  exists c. split; [done |].
  assert (url = verification_url W c) as <-; [| done].
  cbn zeta in Hcall.
  destruct (fetch W (verification_url W c)) as [r | ?].
  - destruct (ok r).
    + destruct (json r) as [p | ?].
      * destruct (Js.truthy p); [destruct (Js.truthy (Js.get p "email")) |];
          cbn in Hcall; intuition congruence.
      * cbn in Hcall; intuition congruence.
    + cbn in Hcall; intuition congruence.
  - cbn in Hcall; intuition congruence.
Qed.

(** C3: when [authorize] fails because no Google client id is configured,
    because the verification call is not ok, or because its payload is empty
    or has no email, it returns [null] (it does not throw), after logging a
    message. *)
Theorem authorize_failure (W : World) (credentials : option (gmap string Js.Value)) :
  one_tap_failure W credentials ->
  result (authorize W credentials) = Returned None
  /\ exists message, last (trace (authorize W credentials)) = Some (console_log message).
Proof.
  intros Hfail. rewrite authorize_run.
  destruct Hfail as [Hid | response Hv Hok | response payload Hv Hjson Hp
                     | response payload Hv Hjson Hmail].
  - rewrite Hid. eauto.
  - apply verification_response_inv in Hv as (-> & c & -> & Hfetch).
    cbn zeta. rewrite Hfetch, Hok. eauto.
  - apply verification_response_inv in Hv as (-> & c & -> & Hfetch).
    cbn zeta. rewrite Hfetch, Hjson, Hp. destruct (ok response); eauto.
  - apply verification_response_inv in Hv as (-> & c & -> & Hfetch).
    cbn zeta. rewrite Hfetch, Hjson, Hmail.
    destruct (ok response); [| eauto]. destruct (Js.truthy payload); eauto.
Qed.

Lemma authorize_failure_witness :
  result (authorize Sample.online_without_email (Some Sample.credentials)) = Returned None
  /\ exists message,
       last (trace (authorize Sample.online_without_email (Some Sample.credentials)))
       = Some (console_log message).
Proof.
  apply (authorize_failure Sample.online_without_email (Some Sample.credentials)).
  apply (no_email _ _ Sample.response_without_email Sample.payload_without_email).
  - exists (verification_url Sample.online_without_email Sample.credentials).
    split; [left |]; reflexivity.
  - reflexivity.
  - reflexivity.
Defined.

(** C8: when [authorize] succeeds (client id configured, verification
    response ok, payload present with an email) it returns the object made
    of the payload's [sub] as [id], its [given_name] and [family_name] joined
    by one space as [name], its [email], its [picture] as [image], and as
    [emailVerified] a date when [email_verified] is truthy and [null]
    otherwise. *)
Theorem authorize_success (W : World) (credentials : option (gmap string Js.Value))
    (response : Response) (payload : Js.Value) :
  env_truthy (process_env W) "NEXT_PUBLIC_AUTH_GOOGLE_ID" = true ->
  verification_response W credentials response ->
  ok response = true ->
  json response = Returned payload ->
  Js.truthy payload = true ->
  Js.truthy (Js.get payload "email") = true ->
  result (authorize W credentials) =
    Returned (Some
      {| id := Js.get payload "sub";
         name := Js.join_element (Number_toString W) (Js.get payload "given_name")
                 +:+ " "
                 +:+ Js.join_element (Number_toString W) (Js.get payload "family_name");
         user_email := Js.get payload "email";
         image := Js.get payload "picture";
         emailVerified :=
           if Js.truthy (Js.get payload "email_verified")
           then Some (Date_now W) else None |}).
Proof.
  intros Hid Hv Hok Hjson Hp Hmail. rewrite authorize_run.
  apply verification_response_inv in Hv as (_ & c & -> & Hfetch).
  cbn zeta. by rewrite Hid, Hfetch, Hok, Hjson, Hp, Hmail.
Qed.

Lemma authorize_success_witness :
  result (authorize Sample.online (Some Sample.credentials)) =
    Returned (Some
      {| id := Js.Str "110169484474386276334";
         name := "Ada Lovelace";
         user_email := Js.Str "ada@example.com";
         image := Js.Str "https://lh3.googleusercontent.com/a/ada";
         emailVerified := Some (Date_now Sample.online) |}).
Proof.
  apply (authorize_success Sample.online (Some Sample.credentials)
           {| ok := true; json := Returned Sample.payload |} Sample.payload).
  - reflexivity.
  - exists (verification_url Sample.online Sample.credentials).
    split; [left |]; reflexivity.
  - reflexivity.
  - reflexivity.
  - reflexivity.
  - reflexivity.
Defined.

(** ** The provider registry and the provider map *)

Lemma env_is_true_truthy env flag :
  env_is env flag "true" = true -> env_truthy env flag = true.
Proof.
  unfold env_is, env_truthy. destruct (env !! flag) as [v |]; [| done].
  by intros ->%String.eqb_eq.
Qed.

(** The registry is the list of the descriptors of the enabled methods. *)
Lemma providers_enabled env :
  providers env = List.map (descriptor env) (List.filter (enabled env) methods).
Proof.
  unfold providers, methods, enabled. cbn.
  destruct (env_is env "NEXT_PUBLIC_AUTH_GOOGLE_ONE_TAP_ENABLED" "true");
  destruct (env_truthy env "NEXT_PUBLIC_AUTH_GOOGLE_ID");
  destruct (env_is env "NEXT_PUBLIC_AUTH_GOOGLE_ENABLED" "true");
  destruct (env_truthy env "AUTH_GOOGLE_ID");
  destruct (env_truthy env "AUTH_GOOGLE_SECRET");
  destruct (env_is env "NEXT_PUBLIC_AUTH_GITHUB_ENABLED" "true");
  destruct (env_truthy env "AUTH_GITHUB_ID");
  destruct (env_truthy env "AUTH_GITHUB_SECRET");
  reflexivity.
Qed.

Lemma method_of_descriptor env m : method_of (descriptor env m) = m.
Proof. by destruct m. Qed.

Lemma providers_methods env :
  List.map method_of (providers env) = List.filter (enabled env) methods.
Proof.
  rewrite providers_enabled, List.map_map.
  rewrite (List.map_ext _ (fun m => m)) by apply method_of_descriptor.
  apply List.map_id.
Qed.

(** C6: whatever the environment, no entry of [providerMap] has the id
    "google-one-tap", and every entry is the [{id, name}] of a registered
    provider. *)
Theorem providerMap_entries (next_auth : Provider -> ProviderValue)
    (env : gmap string string) :
  Forall (fun entry =>
            entry_id entry <> "google-one-tap"
            /\ exists provider, In provider (providers env)
                                /\ entry = normalize (next_auth provider))
         (providerMap next_auth env).
Proof.
  apply List.Forall_forall. intros entry Hin.
  unfold providerMap in Hin.
  apply List.filter_In in Hin as [Hmapped Hid].
  apply List.in_map_iff in Hmapped as (provider & <- & Hprovider).
  split; [| by exists provider].
  apply negb_true_iff, String.eqb_neq in Hid. exact Hid.
Qed.

(** An entry is dropped by its own [id] only: the One Tap provider stays
    in the map under whatever other id the framework's constructor gave its
    descriptor. *)
Remark providerMap_keeps_other_ids (next_auth : Provider -> ProviderValue)
    (env : gmap string string) (provider : Provider) :
  In provider (providers env) ->
  entry_id (normalize (next_auth provider)) <> "google-one-tap" ->
  In (normalize (next_auth provider)) (providerMap next_auth env).
Proof.
  intros Hin Hid. unfold providerMap. apply List.filter_In. split.
  - apply List.in_map_iff. by exists provider.
  - by apply negb_true_iff, String.eqb_neq.
Qed.

(** C7: the registry holds the descriptor of a method exactly when the
    method's flag is "true" and its required variables are set, in the order
    One Tap, Google, GitHub; with none of the variables set the registry and
    the provider map are empty; with only the GitHub variables set the
    registry is the GitHub descriptor alone. *)
Theorem providers_registry (next_auth : Provider -> ProviderValue)
    (env : gmap string string) :
  (forall m, (exists provider, In provider (providers env) /\ method_of provider = m)
             <-> enabled env m = true)
  /\ providers env = List.map (descriptor env) (List.filter (enabled env) [OneTap; Google; GitHub])
  /\ (unset env relevant_variables ->
      providers env = [] /\ providerMap next_auth env = [])
  /\ (enabled env GitHub = true ->
      unset env (feature_flag OneTap :: required_variables OneTap) ->
      unset env (feature_flag Google :: required_variables Google) ->
      providers env = [GitHubProvider (env_get env "AUTH_GITHUB_ID")
                                      (env_get env "AUTH_GITHUB_SECRET")]).
Proof.
  assert (Hoff : forall m, unset env (feature_flag m :: required_variables m) ->
                           enabled env m = false).
  { intros m Hunset. apply List.Forall_inv in Hunset. unfold enabled.
    destruct (env_is env (feature_flag m) "true") eqn:Hflag; [| done].
    apply env_is_true_truthy in Hflag. congruence. }
  split; [| split; [| split]].
  - intros m. split.
    + intros (provider & Hin & <-).
      apply (List.in_map method_of) in Hin. rewrite providers_methods in Hin.
      by apply List.filter_In in Hin as [_ ?].
    + intros Hon. exists (descriptor env m). split; [| apply method_of_descriptor].
      rewrite providers_enabled. apply List.in_map, List.filter_In.
      split; [destruct m; cbn; tauto | done].
  - apply providers_enabled.
  - intros Hunset.
    assert (Hnone : providers env = []).
    { unfold unset, relevant_variables, methods in Hunset. cbn in Hunset.
      repeat (apply List.Forall_cons_iff in Hunset as [? Hunset]).
      rewrite providers_enabled. unfold methods. cbn [List.filter].
      rewrite !Hoff; [done | | |]; unfold unset; cbn; repeat constructor; done. }
    split; [done |]. unfold providerMap. by rewrite Hnone.
  - intros Hgithub Honetap Hgoogle. rewrite providers_enabled.
    unfold methods. cbn [List.filter].
    by rewrite (Hoff _ Honetap), (Hoff _ Hgoogle), Hgithub.
Qed.

Lemma providers_registry_witness :
  (providers ∅ = [] /\ providerMap Sample.next_auth ∅ = [])
  /\ providers Sample.env_github_only = [GitHubProvider "Iv1.0123456789abcdef" "gh-secret"].
Proof.
  split.
  - apply (proj1 (proj2 (proj2 (providers_registry Sample.next_auth ∅)))).
    unfold unset. repeat constructor.
  - apply (proj2 (proj2 (proj2 (providers_registry Sample.next_auth Sample.env_github_only)))).
    + reflexivity.
    + unfold unset. repeat constructor.
    + unfold unset. repeat constructor.
Defined.

(** ** Which operations can throw *)

(** Against C2: with the client id configured, [authorize] lets the rejection
    of [fetch] through when the verification endpoint cannot be reached, and
    [redirect] lets the [TypeError] of the URL constructor through when [url]
    is neither a path nor an absolute URL.  So it does not hold that no
    operation of the module ever throws. *)
Lemma operations_can_throw :
  (result (authorize Sample.network_offline (Some Sample.credentials))
     = Thrown (Failure "fetch failed")
   /\ result (redirect Sample.online "callback" "https://app.example.com")
     = Thrown (TypeError "Invalid URL"))
  /\ ~ (forall W credentials url baseUrl,
          never_throws (authorize W credentials)
          /\ never_throws (redirect W url baseUrl)).
Proof.
  split; [split; reflexivity |].
  intros Hclaim.
  destruct (Hclaim Sample.network_offline (Some Sample.credentials)
              "callback" "https://app.example.com") as [[user Huser] _].
  vm_compute in Huser. discriminate.
Qed.

(** [authorize] throws exactly when the client id is configured and
    [credentials] is undefined, or [fetch] rejects, or the response is ok and
    reading its JSON body rejects. *)
Remark authorize_throws_exactly (W : World)
    (credentials : option (gmap string Js.Value)) :
  throws (authorize W credentials)
  <-> env_truthy (process_env W) "NEXT_PUBLIC_AUTH_GOOGLE_ID" = true
      /\ (credentials = None
          \/ exists c, credentials = Some c
             /\ ((exists e, fetch W (verification_url W c) = Thrown e)
                 \/ exists response e,
                      fetch W (verification_url W c) = Returned response
                      /\ ok response = true
                      /\ json response = Thrown e)).
Proof.
  unfold throws. rewrite authorize_run. split.
  - intros [e He].
    destruct (env_truthy _ _); [| discriminate]. split; [done |].
    destruct credentials as [c |]; [right; exists c; split; [done |] | by left].
    cbn zeta in He.
    destruct (fetch W (verification_url W c)) as [response | e']; [| eauto].
    right. exists response.
    destruct (ok response); [| discriminate].
    destruct (json response) as [payload | e'']; [| by eauto].
    destruct (Js.truthy payload); [| discriminate].
    by destruct (Js.truthy (Js.get payload "email")).
  - intros [-> Hcause].
    destruct Hcause as [-> | (c & -> & [[e He] | (response & e & Hfetch & Hok & Hjson)])].
    + eexists; reflexivity.
    + cbn zeta. rewrite He. eexists; reflexivity.
    + cbn zeta. rewrite Hfetch, Hok, Hjson. eexists; reflexivity.
Qed.

(** C2, amended: [signIn], [session] and [jwt] never throw: [signIn] returns
    [true], [session] returns a session and [jwt] returns the token, as
    given or with [user] attached.  [redirect] throws exactly when [url] does
    not start with a slash and does not parse as an absolute URL, and returns
    otherwise.  [authorize] does not throw, and returns [null] or the user
    object, whenever the client id is not configured, or [credentials] is
    defined, the verification fetch settles and, when the response is ok, its
    JSON body parses. *)
Theorem operations_that_return (W : World) :
  (forall user account profile email credentials,
     signIn user account profile email credentials = ret true)
  /\ (forall s token user, never_throws (session s token user))
  /\ (forall token user account,
        result (jwt W token user account) = Returned token
        \/ exists savedUser,
             result (jwt W token user account)
             = Returned (<["user" := user_projection savedUser]> token))
  /\ (forall url baseUrl,
        (throws (redirect W url baseUrl)
         <-> String.prefix "/" url = false /\ exists e, URL_origin W url = Thrown e)
        /\ (never_throws (redirect W url baseUrl)
            <-> String.prefix "/" url = true \/ exists origin, absolute_url W url origin))
  /\ (forall credentials,
        verification_settles W credentials ->
        never_throws (authorize W credentials)).
Proof.
  split; [done |]. split; [| split; [| split]].
  - intros s token user. unfold session.
    destruct (_ && _ && _); eexists; reflexivity.
  - intros token user account.
    destruct (first_sign_in user account) eqn:Hguard.
    + rewrite (jwt_first_sign_in _ _ _ _ Hguard).
      destruct (getUuid W); [| by left].
      destruct (getIsoTimestr W); [| by left].
      destruct (getClientIp W); [| by left].
      cbn zeta. destruct (saveUser W _) as [savedUser |]; [right; eauto | by left].
    + rewrite (jwt_skipped _ _ _ _ Hguard). by left.
  - intros url baseUrl. unfold throws, never_throws, absolute_url, redirect.
    destruct (String.prefix "/" url).
    + split; split.
      * by intros [e He].
      * by intros [? _].
      * by left.
      * by eexists.
    + destruct (URL_origin W url) as [origin |] eqn:Horigin; run.
      * split; split.
        -- intros [e He]. by destruct (String.eqb origin baseUrl).
        -- by intros [_ [e ?]].
        -- right. by exists origin.
        -- intros _. destruct (String.eqb origin baseUrl); eexists; reflexivity.
      * split; split.
        -- eauto.
        -- eauto.
        -- by intros [a ?].
        -- by intros [? | [origin [_ ?]]].
  - intros credentials Hsettles. unfold never_throws. rewrite authorize_run.
    destruct Hsettles as [-> | (c & response & -> & Hid & Hfetch & Hbody)].
    + eexists; reflexivity.
    + rewrite Hid. cbn zeta. rewrite Hfetch.
      destruct (ok response); [| eexists; reflexivity].
      destruct Hbody as [payload ->]; [done |].
      destruct (Js.truthy payload); [| eexists; reflexivity].
      destruct (Js.truthy (Js.get payload "email")); eexists; reflexivity.
Qed.

Lemma operations_that_return_witness :
  never_throws (redirect Sample.online "/dashboard" "https://app.example.com")
  /\ throws (redirect Sample.online "callback" "https://app.example.com")
  /\ never_throws (authorize Sample.online (Some Sample.credentials))
  /\ never_throws (authorize Sample.online_without_email (Some Sample.credentials)).
Proof.
  split; [| split; [| split]].
  - apply (proj2 (proj1 (proj2 (proj2 (proj2 (operations_that_return Sample.online))))
                   "/dashboard" "https://app.example.com")).
    by left.
  - apply (proj1 (proj1 (proj2 (proj2 (proj2 (operations_that_return Sample.online))))
                   "callback" "https://app.example.com")).
    split; [reflexivity |]. eexists; reflexivity.
  - apply (proj2 (proj2 (proj2 (proj2 (operations_that_return Sample.online))))).
    right. exists Sample.credentials, {| ok := true; json := Returned Sample.payload |}.
    repeat split. intros _. by eexists.
  - apply (proj2 (proj2 (proj2 (proj2 (operations_that_return Sample.online_without_email))))).
    right. exists Sample.credentials, Sample.response_without_email.
    repeat split. intros _. by eexists.
Defined.

(** * Further properties of the callbacks *)

(** ** [jwt]: what reaches [saveUser] and what reaches the token *)

(** A call to [saveUser] happens only behind the guard, after the three
    helpers answered, and with the record built from their answers. *)
Lemma jwt_saveUser_called W token user account dbUser :
  In (call_saveUser dbUser) (trace (jwt W token user account)) ->
  first_sign_in user account = true
  /\ exists new_uuid now ip,
       getUuid W = Returned new_uuid
       /\ getIsoTimestr W = Returned now
       /\ getClientIp W = Returned ip
       /\ dbUser = candidate_user user account new_uuid now ip.
Proof.
  intros Hcall.
  destruct (first_sign_in user account) eqn:Hguard;
    [| rewrite (jwt_skipped _ _ _ _ Hguard) in Hcall; destruct Hcall].
  split; [done |].
  rewrite (jwt_first_sign_in _ _ _ _ Hguard) in Hcall.
  destruct (getUuid W) as [new_uuid |]; [| cbn in Hcall; intuition discriminate].
  destruct (getIsoTimestr W) as [now |]; [| cbn in Hcall; intuition discriminate].
  destruct (getClientIp W) as [ip |]; [| cbn in Hcall; intuition discriminate].
  exists new_uuid, now, ip. repeat split.
  cbn zeta in Hcall.
  destruct (saveUser W _); cbn in Hcall;
    destruct Hcall as [? | [? | [? | [Hdb | Hrest]]]]; try discriminate;
    try (by injection Hdb as <-); try (by destruct Hrest);
    destruct Hrest as [? | []]; discriminate.
Qed.

(** The run of [jwt] once the helpers have answered. *)
Lemma jwt_saves W token user account new_uuid now ip :
  first_sign_in user account = true ->
  getUuid W = Returned new_uuid ->
  getIsoTimestr W = Returned now ->
  getClientIp W = Returned ip ->
  let dbUser := candidate_user user account new_uuid now ip in
  jwt W token user account =
    match saveUser W dbUser with
    | Thrown e =>
        ([call_getUuid; call_getIsoTimestr; call_getClientIp;
          call_saveUser dbUser; console_error "save user failed:" e],
         Returned token)
    | Returned savedUser =>
        ([call_getUuid; call_getIsoTimestr; call_getClientIp; call_saveUser dbUser],
         Returned (<["user" := user_projection savedUser]> token))
    end.
Proof.
  intros Hguard Huuid Hnow Hip. rewrite (jwt_first_sign_in _ _ _ _ Hguard).
  by rewrite Huuid, Hnow, Hip.
Qed.

(** X1: when the call to [saveUser] answers, [jwt] returns the token with
    [user] replaced by an object of exactly five properties (uuid, email,
    nickname, avatar_url, created_at) taken from the saved user; the sign-in
    type, provider, open id and client IP never reach the token, and every
    other property of the token is as it was. *)
Theorem jwt_attaches_projection (W : World) (token : gmap string Js.Value)
    (user account : Js.Value) (dbUser savedUser : User) :
  In (call_saveUser dbUser) (trace (jwt W token user account)) ->
  saveUser W dbUser = Returned savedUser ->
  exists token' props,
    result (jwt W token user account) = Returned token'
    /\ token' !! "user" = Some (Js.Obj props)
    /\ (forall k, k <> "user" -> token' !! k = token !! k)
    /\ dom props = list_to_set projected_properties
    /\ props !! "uuid" = Some (uuid savedUser)
    /\ props !! "email" = Some (email savedUser)
    /\ props !! "nickname" = Some (nickname savedUser)
    /\ props !! "avatar_url" = Some (avatar_url savedUser)
    /\ props !! "created_at" = Some (created_at savedUser).
Proof.
  intros Hcall Hsave.
  destruct (jwt_saveUser_called _ _ _ _ _ Hcall)
    as (Hguard & new_uuid & now & ip & Huuid & Hnow & Hip & ->).
  rewrite (jwt_saves _ _ _ _ _ _ _ Hguard Huuid Hnow Hip). cbn zeta.
  rewrite Hsave. eexists _, _. split; [reflexivity |].
  split; [apply lookup_insert_eq |].
  split; [by intros k Hk; apply lookup_insert_ne |].
  split.
  - unfold projected_properties. rewrite !dom_insert_L, dom_empty_L.
    cbn. set_solver.
  - by repeat split.
Qed.

Lemma jwt_attaches_projection_witness :
  exists token' props,
    result (jwt Sample.returning_user Sample.jwt_token_with_user Sample.github_user
              Sample.github_account) = Returned token'
    /\ token' !! "user" = Some (Js.Obj props)
    /\ (forall k, k <> "user" -> token' !! k = Sample.jwt_token_with_user !! k)
    /\ dom props = list_to_set projected_properties
    /\ props !! "uuid" = Some (uuid Sample.stored_record)
    /\ props !! "email" = Some (email Sample.stored_record)
    /\ props !! "nickname" = Some (nickname Sample.stored_record)
    /\ props !! "avatar_url" = Some (avatar_url Sample.stored_record)
    /\ props !! "created_at" = Some (created_at Sample.stored_record).
Proof.
  apply (jwt_attaches_projection Sample.returning_user Sample.jwt_token_with_user
           Sample.github_user Sample.github_account Sample.github_record
           Sample.stored_record).
  - vm_compute. tauto.
  - reflexivity.
Defined.

(** X2: when the guard passes and one of [getUuid], [getIsoTimestr] and
    [getClientIp] throws, [jwt] does not call [saveUser]; it logs
    "jwt callback error:" with that exception and returns the token as it
    was given. *)
Theorem jwt_helper_failure (W : World) (token : gmap string Js.Value)
    (user account : Js.Value) (e : Exn) :
  first_sign_in user account = true ->
  helper_failure W e ->
  result (jwt W token user account) = Returned token
  /\ last (trace (jwt W token user account)) = Some (console_error "jwt callback error:" e)
  /\ forall dbUser, ~ In (call_saveUser dbUser) (trace (jwt W token user account)).
Proof.
  intros Hguard Hfail. rewrite (jwt_first_sign_in _ _ _ _ Hguard).
  destruct Hfail as [-> | [(new_uuid & -> & ->) | (new_uuid & now & -> & -> & ->)]];
    (split; [done |]; split; [done |]);
    intros dbUser Hin; cbn in Hin; intuition discriminate.
Qed.

Lemma jwt_helper_failure_witness :
  result (jwt Sample.no_request_scope Sample.jwt_token Sample.github_user
            Sample.github_account) = Returned Sample.jwt_token
  /\ last (trace (jwt Sample.no_request_scope Sample.jwt_token Sample.github_user
                    Sample.github_account))
     = Some (console_error "jwt callback error:"
               (Failure "headers was called outside a request scope"))
  /\ forall dbUser,
       ~ In (call_saveUser dbUser)
            (trace (jwt Sample.no_request_scope Sample.jwt_token Sample.github_user
                      Sample.github_account)).
Proof.
  apply (jwt_helper_failure Sample.no_request_scope Sample.jwt_token Sample.github_user
           Sample.github_account).
  - reflexivity.
  - right. right. eexists _, _. repeat split.
Defined.

(** X3: in one invocation [jwt] calls [saveUser] at most once, and only
    after [getUuid], [getIsoTimestr] and [getClientIp], in that order; it
    never fetches anything and never writes to [console.log]. *)
Theorem jwt_call_discipline (W : World) (token : gmap string Js.Value)
    (user account : Js.Value) :
  (forall dbUser, In (call_saveUser dbUser) (trace (jwt W token user account)) ->
     exists rest,
       trace (jwt W token user account)
       = ([call_getUuid; call_getIsoTimestr; call_getClientIp; call_saveUser dbUser]
          ++ rest)%list
       /\ forall dbUser', ~ In (call_saveUser dbUser') rest)
  /\ (forall url, ~ In (call_fetch url) (trace (jwt W token user account)))
  /\ (forall message, ~ In (console_log message) (trace (jwt W token user account))).
Proof.
  split; [| split].
  - intros dbUser Hcall.
    destruct (jwt_saveUser_called _ _ _ _ _ Hcall)
      as (Hguard & new_uuid & now & ip & Huuid & Hnow & Hip & ->).
    rewrite (jwt_saves _ _ _ _ _ _ _ Hguard Huuid Hnow Hip). cbn zeta.
    destruct (saveUser W _) as [savedUser | e].
    + exists []. split; [done |]. by intros ? [].
    + exists [console_error "save user failed:" e]. split; [done |].
      intros ? [? | []]. discriminate.
  - intros url Hin.
    destruct (first_sign_in user account) eqn:Hguard;
      [| by rewrite (jwt_skipped _ _ _ _ Hguard) in Hin].
    rewrite (jwt_first_sign_in _ _ _ _ Hguard) in Hin.
    destruct (getUuid W); [| cbn in Hin; intuition discriminate].
    destruct (getIsoTimestr W); [| cbn in Hin; intuition discriminate].
    destruct (getClientIp W); [| cbn in Hin; intuition discriminate].
    cbn zeta in Hin. destruct (saveUser W _); cbn in Hin; intuition discriminate.
  - intros message Hin.
    destruct (first_sign_in user account) eqn:Hguard;
      [| by rewrite (jwt_skipped _ _ _ _ Hguard) in Hin].
    rewrite (jwt_first_sign_in _ _ _ _ Hguard) in Hin.
    destruct (getUuid W); [| cbn in Hin; intuition discriminate].
    destruct (getIsoTimestr W); [| cbn in Hin; intuition discriminate].
    destruct (getClientIp W); [| cbn in Hin; intuition discriminate].
    cbn zeta in Hin. destruct (saveUser W _); cbn in Hin; intuition discriminate.
Qed.

Lemma jwt_call_discipline_witness :
  exists rest,
    trace (jwt Sample.database_offline Sample.jwt_token Sample.github_user
             Sample.github_account)
    = ([call_getUuid; call_getIsoTimestr; call_getClientIp;
        call_saveUser Sample.github_record] ++ rest)%list
    /\ forall dbUser', ~ In (call_saveUser dbUser') rest.
Proof.
  apply (proj1 (jwt_call_discipline Sample.database_offline Sample.jwt_token
                  Sample.github_user Sample.github_account) Sample.github_record).
  vm_compute. tauto.
Defined.

(** X4: the record handed to [saveUser] carries the user's name and image
    when they are truthy and the empty string otherwise, so that its
    nickname and avatar_url are never [undefined] or [null]; its uuid,
    created_at and signin_ip are the strings the three helpers gave. *)
Theorem jwt_candidate_defaults (W : World) (token : gmap string Js.Value)
    (user account : Js.Value) (dbUser : User) :
  In (call_saveUser dbUser) (trace (jwt W token user account)) ->
  nickname dbUser = (if Js.truthy (Js.get user "name")
                     then Js.get user "name" else Js.Str "")
  /\ avatar_url dbUser = (if Js.truthy (Js.get user "image")
                          then Js.get user "image" else Js.Str "")
  /\ nickname dbUser <> Js.Undefined /\ nickname dbUser <> Js.Null
  /\ avatar_url dbUser <> Js.Undefined /\ avatar_url dbUser <> Js.Null
  /\ exists new_uuid now ip,
       getUuid W = Returned new_uuid /\ uuid dbUser = Js.Str new_uuid
       /\ getIsoTimestr W = Returned now /\ created_at dbUser = Js.Str now
       /\ getClientIp W = Returned ip /\ signin_ip dbUser = Js.Str ip.
Proof.
  intros Hcall.
  destruct (jwt_saveUser_called _ _ _ _ _ Hcall)
    as (_ & new_uuid & now & ip & Huuid & Hnow & Hip & ->).
  cbn. unfold Js.or.
  repeat split; try done; try (by exists new_uuid, now, ip);
    try (destruct (Js.truthy (Js.get user "name")) eqn:Hname; [| done];
         intros Heq; by rewrite Heq in Hname);
    try (destruct (Js.truthy (Js.get user "image")) eqn:Himage; [| done];
         intros Heq; by rewrite Heq in Himage).
Qed.

Lemma jwt_candidate_defaults_witness :
  nickname (candidate_user Sample.bare_user Sample.github_account
              "0b7e3c1a-5d2f-4a7e-9c66-3f1d2a4b5c6d" "2026-01-01T00:00:00.000Z"
              "203.0.113.7") = Js.Str ""
  /\ avatar_url (candidate_user Sample.bare_user Sample.github_account
                   "0b7e3c1a-5d2f-4a7e-9c66-3f1d2a4b5c6d" "2026-01-01T00:00:00.000Z"
                   "203.0.113.7") = Js.Str "".
Proof.
  destruct (jwt_candidate_defaults Sample.online Sample.jwt_token Sample.bare_user
              Sample.github_account
              (candidate_user Sample.bare_user Sample.github_account
                 "0b7e3c1a-5d2f-4a7e-9c66-3f1d2a4b5c6d" "2026-01-01T00:00:00.000Z"
                 "203.0.113.7"))
    as (Hnick & Havatar & _).
  - vm_compute. tauto.
  - split; [exact Hnick | exact Havatar].
Defined.

(** ** [session] after [jwt] *)

(** X5: [session] applied to the token [jwt] returned shows, after a sign-in
    whose [saveUser] call answered, exactly the projection of the saved user
    as [session.user]; after any other run of [jwt] it gives what it gives on
    the token [jwt] received. *)
Theorem session_after_jwt (W : World) (token token' s : gmap string Js.Value)
    (user account session_user : Js.Value) :
  result (jwt W token user account) = Returned token' ->
  (forall dbUser savedUser,
     In (call_saveUser dbUser) (trace (jwt W token user account)) ->
     saveUser W dbUser = Returned savedUser ->
     session s (Js.Obj token') session_user
     = ret (<["user" := user_projection savedUser]> s))
  /\ ((forall dbUser savedUser,
         In (call_saveUser dbUser) (trace (jwt W token user account)) ->
         saveUser W dbUser <> Returned savedUser) ->
      session s (Js.Obj token') session_user = session s (Js.Obj token) session_user).
Proof.
  intros Hrun. split.
  - intros dbUser savedUser Hcall Hsave.
    destruct (jwt_saveUser_called _ _ _ _ _ Hcall)
      as (Hguard & new_uuid & now & ip & Huuid & Hnow & Hip & ->).
    rewrite (jwt_saves _ _ _ _ _ _ _ Hguard Huuid Hnow Hip) in Hrun.
    cbn zeta in Hrun. rewrite Hsave in Hrun. injection Hrun as <-.
    unfold session. cbn. by rewrite lookup_insert_eq.
  - intros Hnone.
    destruct (first_sign_in user account) eqn:Hguard;
      [| rewrite (jwt_skipped _ _ _ _ Hguard) in Hrun; by injection Hrun as <-].
    rewrite (jwt_first_sign_in _ _ _ _ Hguard) in Hrun, Hnone.
    destruct (getUuid W); [| by injection Hrun as <-].
    destruct (getIsoTimestr W); [| by injection Hrun as <-].
    destruct (getClientIp W); [| by injection Hrun as <-].
    cbn zeta in Hrun, Hnone.
    destruct (saveUser W _) as [savedUser | e] eqn:Hsave; [| by injection Hrun as <-].
    edestruct Hnone; [| exact Hsave]. cbn. tauto.
Qed.

Lemma session_after_jwt_witness :
  session Sample.session_object
    (Js.Obj (<["user" := user_projection Sample.stored_record]> Sample.jwt_token))
    Js.Undefined
  = ret (<["user" := user_projection Sample.stored_record]> Sample.session_object)
  /\ session Sample.session_object (Js.Obj Sample.jwt_token) Js.Undefined
    = session Sample.session_object (Js.Obj Sample.jwt_token) Js.Undefined.
Proof.
  split;
    [| apply (proj2 (session_after_jwt Sample.database_offline Sample.jwt_token
                       Sample.jwt_token Sample.session_object Sample.github_user
                       Sample.github_account Js.Undefined eq_refl));
       intros dbUser savedUser _; discriminate].
  apply (proj1 (session_after_jwt Sample.returning_user Sample.jwt_token
                  (<["user" := user_projection Sample.stored_record]> Sample.jwt_token)
                  Sample.session_object Sample.github_user Sample.github_account
                  Js.Undefined eq_refl)
           Sample.github_record Sample.stored_record).
  - vm_compute. tauto.
  - reflexivity.
Defined.

(** X6: [session] is idempotent: run again on the session it returned, with
    the same token, it returns that session unchanged. *)
Theorem session_idempotent (s s' : gmap string Js.Value) (token user user' : Js.Value) :
  result (session s token user) = Returned s' ->
  session s' token user' = ret s'.
Proof.
  unfold session. destruct (_ && _ && _); cbn; intros [= <-]; [| done].
  by rewrite insert_insert_eq.
Qed.

Lemma session_idempotent_witness :
  session (<["user" := Js.get Sample.token_after_sign_in "user"]> Sample.session_object)
          Sample.token_after_sign_in Js.Null
  = ret (<["user" := Js.get Sample.token_after_sign_in "user"]> Sample.session_object).
Proof.
  apply (session_idempotent Sample.session_object _ Sample.token_after_sign_in
           Js.Undefined Js.Null).
  reflexivity.
Defined.

(** ** [authorize]: calls, logs and edge cases *)

Lemma authorize_verified W credentials payload :
  verified W credentials payload ->
  authorize W credentials
  = (match credentials with
     | Some c => [call_fetch (verification_url W c)]
     | None => []
     end, Returned (Some (one_tap_user W payload))).
Proof.
  intros (response & Hv & Hok & Hjson & Hp & Hmail).
  apply verification_response_inv in Hv as (Hid & c & -> & Hfetch).
  rewrite authorize_run, Hid. cbn zeta.
  by rewrite Hfetch, Hok, Hjson, Hp, Hmail.
Qed.

(** The four shapes a run of [authorize] can have. *)
Lemma authorize_shapes W credentials :
  (env_truthy (process_env W) "NEXT_PUBLIC_AUTH_GOOGLE_ID" = false
   /\ authorize W credentials
      = ([console_log "invalid google auth config"], Returned None))
  \/ (env_truthy (process_env W) "NEXT_PUBLIC_AUTH_GOOGLE_ID" = true
      /\ credentials = None
      /\ exists e, authorize W credentials = ([], Thrown e))
  \/ (env_truthy (process_env W) "NEXT_PUBLIC_AUTH_GOOGLE_ID" = true
      /\ exists c r, credentials = Some c
         /\ authorize W credentials = ([call_fetch (verification_url W c)], r))
  \/ (env_truthy (process_env W) "NEXT_PUBLIC_AUTH_GOOGLE_ID" = true
      /\ exists c message, credentials = Some c
         /\ In message authorize_messages
         /\ authorize W credentials
            = ([call_fetch (verification_url W c); console_log message], Returned None)).
Proof.
  rewrite authorize_run. unfold authorize_messages.
  destruct (env_truthy _ _); [| by left].
  right. destruct credentials as [c |]; [| left; eauto].
  right. cbn zeta.
  destruct (fetch W (verification_url W c)) as [response | e]; [| left; eauto].
  destruct (ok response);
    [| right; split; [done |]; eexists _, _; repeat split; cbn; tauto].
  destruct (json response) as [payload | e]; [| left; eauto].
  destruct (Js.truthy payload);
    [| right; split; [done |]; eexists _, _; repeat split; cbn; tauto].
  destruct (Js.truthy (Js.get payload "email")); [left; eauto |].
  right; split; [done |]; eexists _, _; repeat split; cbn; tauto.
Qed.



(** X8: with the client id configured and credentials given, [authorize]
    always makes the verification call, and appends the credential to the
    endpoint as it is, without escaping; when the credentials hold no
    [credential], the text "undefined" is sent in its place. *)
Theorem authorize_sends_credential (W : World) (c : gmap string Js.Value) :
  env_truthy (process_env W) "NEXT_PUBLIC_AUTH_GOOGLE_ID" = true ->
  (forall text, c !! "credential" = Some (Js.Str text) ->
     In (call_fetch (tokeninfo_endpoint +:+ text)) (trace (authorize W (Some c))))
  /\ (c !! "credential" = None ->
      In (call_fetch (tokeninfo_endpoint +:+ "undefined")) (trace (authorize W (Some c)))).
Proof.
  intros Hid.
  assert (Hcall : In (call_fetch (verification_url W c)) (trace (authorize W (Some c)))).
  { destruct (authorize_shapes W (Some c))
      as [[Hoff _] | [(_ & [=] & _) | [(_ & c' & r & [= <-] & ->)
                                      | (_ & c' & message & [= <-] & _ & ->)]]];
      [congruence | by left | by left]. }
  unfold verification_url in Hcall.
  split; [intros text Hc | intros Hc]; by rewrite Hc in Hcall.
Qed.

Lemma authorize_sends_credential_witness :
  In (call_fetch (tokeninfo_endpoint +:+ "undefined"))
     (trace (authorize Sample.online (Some ∅))).
Proof.
  apply (proj2 (authorize_sends_credential Sample.online ∅ eq_refl)).
  reflexivity.
Defined.

(** X9: [emailVerified] follows the truthiness of [email_verified], so that
    any non-empty text there, "false" included, gives a date. *)
Theorem authorize_email_verified_text (W : World)
    (credentials : option (gmap string Js.Value)) (payload : Js.Value) (text : string) :
  verified W credentials payload ->
  Js.get payload "email_verified" = Js.Str text ->
  text <> "" ->
  exists user, result (authorize W credentials) = Returned (Some user)
               /\ emailVerified user = Some (Date_now W).
Proof.
  intros Hv Hflag Htext. rewrite (authorize_verified _ _ _ Hv).
  eexists. split; [reflexivity |].
  cbn. rewrite Hflag. cbn.
  apply String.eqb_neq in Htext. by rewrite Htext.
Qed.

Lemma authorize_email_verified_text_witness :
  exists user,
    result (authorize Sample.online_unverified (Some Sample.credentials))
    = Returned (Some user)
    /\ emailVerified user = Some (Date_now Sample.online_unverified).
Proof.
  apply (authorize_email_verified_text Sample.online_unverified (Some Sample.credentials)
           Sample.payload_unverified "false").
  - exists {| ok := true; json := Returned Sample.payload_unverified |}.
    split; [| by repeat split].
    exists (verification_url Sample.online_unverified Sample.credentials).
    split; [left |]; reflexivity.
  - reflexivity.
  - discriminate.
Defined.

(** X10: the [name] of the user [authorize] returns is never empty: it is
    the given and the family name around one space, and a name that is
    missing (or [null]) leaves its side of the space empty. *)
Theorem authorize_name_edges (W : World)
    (credentials : option (gmap string Js.Value)) (payload : Js.Value) :
  verified W credentials payload ->
  exists user,
    result (authorize W credentials) = Returned (Some user)
    /\ name user <> ""
    /\ (forall given family,
          Js.get payload "given_name" = Js.Str given ->
          Js.get payload "family_name" = Js.Str family ->
          name user = given +:+ " " +:+ family)
    /\ (forall family,
          nullish (Js.get payload "given_name") = true ->
          Js.get payload "family_name" = Js.Str family ->
          name user = " " +:+ family)
    /\ (forall given,
          Js.get payload "given_name" = Js.Str given ->
          nullish (Js.get payload "family_name") = true ->
          name user = given +:+ " ")
    /\ (nullish (Js.get payload "given_name") = true ->
        nullish (Js.get payload "family_name") = true ->
        name user = " ").
Proof.
  intros Hv. rewrite (authorize_verified _ _ _ Hv).
  eexists. split; [reflexivity |]. cbn [one_tap_user name].
  assert (Hnull : forall v, nullish v = true -> Js.join_element (Number_toString W) v = "").
  { by intros [| | | | | |]. }
  split; [| repeat split].
  - generalize (Js.join_element (Number_toString W) (Js.get payload "given_name")).
    intros [| c given]; discriminate.
  - by intros given family -> ->.
  - intros family Hgiven ->. by rewrite (Hnull _ Hgiven).
  - intros given -> Hfamily. by rewrite (Hnull _ Hfamily).
  - intros Hgiven Hfamily. by rewrite (Hnull _ Hgiven), (Hnull _ Hfamily).
Qed.

Lemma authorize_name_edges_witness :
  exists user,
    result (authorize Sample.online_unverified (Some Sample.credentials))
    = Returned (Some user)
    /\ name user = " ".
Proof.
  destruct (authorize_name_edges Sample.online_unverified (Some Sample.credentials)
              Sample.payload_unverified)
    as (user & Hrun & _ & _ & _ & _ & Hbare).
  - exists {| ok := true; json := Returned Sample.payload_unverified |}.
    split; [| by repeat split].
    exists (verification_url Sample.online_unverified Sample.credentials).
    split; [left |]; reflexivity.
  - exists user. split; [exact Hrun |]. apply Hbare; reflexivity.
Defined.

(** X11: a verification body that parses to anything but an object (a
    text, a number, a boolean, an array, [null]) makes [authorize] return
    [null], after one of the two payload messages. *)
Theorem authorize_rejects_non_objects (W : World)
    (credentials : option (gmap string Js.Value)) (response : Response)
    (payload : Js.Value) :
  verification_response W credentials response ->
  ok response = true ->
  json response = Returned payload ->
  (forall props, payload <> Js.Obj props) ->
  result (authorize W credentials) = Returned None
  /\ (last (trace (authorize W credentials))
        = Some (console_log (if Js.truthy payload
                             then "invalid email in payload"
                             else "invalid payload from token"))).
Proof.
  intros Hv Hok Hjson Hshape.
  apply verification_response_inv in Hv as (Hid & c & -> & Hfetch).
  rewrite authorize_run, Hid. cbn zeta. rewrite Hfetch, Hok, Hjson.
  destruct payload as [| | b | f | text | items | props];
    try done; try (by destruct (Js.truthy _)).
  by destruct (Hshape props).
Qed.

Lemma authorize_rejects_non_objects_witness :
  result (authorize Sample.online_text_body (Some Sample.credentials)) = Returned None
  /\ last (trace (authorize Sample.online_text_body (Some Sample.credentials)))
     = Some (console_log "invalid email in payload").
Proof.
  apply (authorize_rejects_non_objects Sample.online_text_body (Some Sample.credentials)
           {| ok := true; json := Returned (Js.Str "ok") |} (Js.Str "ok")).
  - exists (verification_url Sample.online_text_body Sample.credentials).
    split; [left |]; reflexivity.
  - reflexivity.
  - reflexivity.
  - discriminate.
Defined.

(** ** The registry and the provider map: invariants *)

Lemma env_truthy_set_to env name :
  env_truthy env name = true -> set_to env name (env_get env name).
Proof.
  unfold env_truthy, env_get, set_to.
  destruct (env !! name) as [value |]; [| done]. cbn.
  intros Hvalue. split; [done |].
  intros ->. discriminate.
Qed.

Lemma providers_in env provider :
  In provider (providers env) ->
  enabled env (method_of provider) = true
  /\ provider = descriptor env (method_of provider).
Proof.
  rewrite providers_enabled. intros (m & <- & Hm)%List.in_map_iff.
  apply List.filter_In in Hm as [_ Hon].
  by rewrite method_of_descriptor.
Qed.

(** X12: the registry never holds more than three providers nor the same
    method twice; a Google or GitHub descriptor in it carries the non-empty
    client id and secret of its environment variables, and a credentials
    descriptor in it is the One Tap configuration, whose id and name are
    "google-one-tap" and whose [authorize] is the function above. *)
Theorem providers_invariant (env : gmap string string) :
  (length (providers env) <= 3)%nat
  /\ List.NoDup (List.map method_of (providers env))
  /\ (forall clientId clientSecret,
        In (GoogleProvider clientId clientSecret) (providers env) ->
        set_to env "AUTH_GOOGLE_ID" clientId
        /\ set_to env "AUTH_GOOGLE_SECRET" clientSecret)
  /\ (forall clientId clientSecret,
        In (GitHubProvider clientId clientSecret) (providers env) ->
        set_to env "AUTH_GITHUB_ID" clientId
        /\ set_to env "AUTH_GITHUB_SECRET" clientSecret)
  /\ (forall config,
        In (CredentialsProvider config) (providers env) ->
        config_id config = "google-one-tap"
        /\ config_name config = "google-one-tap"
        /\ config_authorize config = authorize
        /\ exists clientId, set_to env "NEXT_PUBLIC_AUTH_GOOGLE_ID" clientId).
Proof.
  split; [| split; [| split; [| split]]].
  - rewrite providers_enabled, List.length_map. unfold methods. cbn.
    destruct (enabled env OneTap), (enabled env Google), (enabled env GitHub); cbn; lia.
  - rewrite providers_methods. apply List.NoDup_filter. unfold methods.
    repeat constructor; cbn; intuition discriminate.
  - intros clientId clientSecret [Hon Heq]%providers_in.
    injection Heq as -> ->. unfold enabled in Hon. cbn in Hon.
    apply andb_prop in Hon as [_ [Hid [Hsecret _]%andb_prop]%andb_prop].
    split; by apply env_truthy_set_to.
  - intros clientId clientSecret [Hon Heq]%providers_in.
    injection Heq as -> ->. unfold enabled in Hon. cbn in Hon.
    apply andb_prop in Hon as [_ [Hid [Hsecret _]%andb_prop]%andb_prop].
    split; by apply env_truthy_set_to.
  - intros config [Hon Heq]%providers_in.
    injection Heq as ->. unfold enabled in Hon. cbn in Hon.
    apply andb_prop in Hon as [_ [Hid _]%andb_prop].
    repeat split. eexists. by apply env_truthy_set_to.
Qed.

Lemma providers_invariant_witness :
  set_to Sample.env_github_only "AUTH_GITHUB_ID" "Iv1.0123456789abcdef"
  /\ set_to Sample.env_github_only "AUTH_GITHUB_SECRET" "gh-secret".
Proof.
  apply (proj1 (proj2 (proj2 (proj2 (providers_invariant Sample.env_github_only))))).
  left. reflexivity.
Defined.

(** X13: the registry and the provider map depend on the eight variables
    the module reads and on nothing else in the environment. *)
Theorem providers_frame (next_auth : Provider -> ProviderValue)
    (env env' : gmap string string) :
  same_configuration env env' ->
  providers env = providers env'
  /\ providerMap next_auth env = providerMap next_auth env'.
Proof.
  intros Hsame.
  assert (Hproviders : providers env = providers env').
  { unfold providers, env_is, env_truthy, env_get.
    rewrite !(Hsame "NEXT_PUBLIC_AUTH_GOOGLE_ONE_TAP_ENABLED"),
            !(Hsame "NEXT_PUBLIC_AUTH_GOOGLE_ID"),
            !(Hsame "NEXT_PUBLIC_AUTH_GOOGLE_ENABLED"),
            !(Hsame "AUTH_GOOGLE_ID"), !(Hsame "AUTH_GOOGLE_SECRET"),
            !(Hsame "NEXT_PUBLIC_AUTH_GITHUB_ENABLED"),
            !(Hsame "AUTH_GITHUB_ID"), !(Hsame "AUTH_GITHUB_SECRET");
      cbn; tauto. }
  split; [done |]. unfold providerMap. by rewrite Hproviders.
Qed.

Lemma providers_frame_witness :
  providers Sample.env_deployed = providers Sample.env_all
  /\ providerMap Sample.next_auth Sample.env_deployed
     = providerMap Sample.next_auth Sample.env_all.
Proof.
  apply (providers_frame Sample.next_auth Sample.env_deployed Sample.env_all).
  intros name Hname. cbn in Hname.
  repeat (destruct Hname as [<- | Hname]; [reflexivity |]). destruct Hname.
Defined.

(** X14: the provider map holds exactly the [{id, name}] of the registered
    providers whose id, as the framework's constructor reports it, is not
    "google-one-tap"; it is never longer than the registry, and when no
    constructor reports that id it is the whole registry, in its order. *)
Theorem providerMap_exact (next_auth : Provider -> ProviderValue)
    (env : gmap string string) :
  (forall entry,
     In entry (providerMap next_auth env)
     <-> exists provider,
           In provider (providers env)
           /\ entry = normalize (next_auth provider)
           /\ entry_id entry <> "google-one-tap")
  /\ (length (providerMap next_auth env) <= length (providers env))%nat
  /\ ((forall provider, In provider (providers env) ->
         entry_id (normalize (next_auth provider)) <> "google-one-tap") ->
      providerMap next_auth env
      = List.map (fun provider => normalize (next_auth provider)) (providers env)).
Proof.
  unfold providerMap. split; [| split].
  - intros entry. rewrite List.filter_In, List.in_map_iff. split.
    + intros [(provider & <- & Hin) Hid]. exists provider.
      repeat split; [done |]. by apply negb_true_iff, String.eqb_neq in Hid.
    + intros (provider & Hin & -> & Hid). split; [by exists provider |].
      by apply negb_true_iff, String.eqb_neq.
  - etrans; [apply List.filter_length_le |]. by rewrite List.length_map.
  - intros Hids. induction (providers env) as [| provider rest IH]; [done |].
    cbn. rewrite (proj2 (String.eqb_neq _ _) (Hids provider (or_introl eq_refl))).
    cbn. f_equal. apply IH. intros p Hp. apply Hids. by right.
Qed.

Lemma providerMap_exact_witness :
  providerMap Sample.next_auth Sample.env_github_only
  = [{| entry_id := "github"; entry_name := "GitHub" |}].
Proof.
  apply (proj2 (proj2 (providerMap_exact Sample.next_auth Sample.env_github_only))).
  intros provider [<- | []]. discriminate.
Defined.

(** X15: as long as the environment is the one the registry was built
    from, the [authorize] of a registered One Tap provider never answers
    "invalid google auth config". *)
Theorem registered_authorize_configured (W : World) (config : CredentialsConfig)
    (credentials : option (gmap string Js.Value)) :
  In (CredentialsProvider config) (providers (process_env W)) ->
  ~ In (console_log "invalid google auth config")
       (trace (config_authorize config W credentials)).
Proof.
  intros [Hon Heq]%providers_in. injection Heq as ->.
  unfold enabled in Hon. cbn in Hon.
  apply andb_prop in Hon as [_ [Hid _]%andb_prop].
  cbn [config_authorize one_tap_config]. rewrite authorize_run, Hid.
  destruct credentials as [c |]; [| by intros []]. cbn zeta.
  destruct (fetch W (verification_url W c)) as [response | e];
    [| intros Hin; cbn in Hin; intuition discriminate].
  destruct (ok response); [| intros Hin; cbn in Hin; intuition discriminate].
  destruct (json response) as [payload | e];
    [| intros Hin; cbn in Hin; intuition discriminate].
  destruct (Js.truthy payload); [| intros Hin; cbn in Hin; intuition discriminate].
  destruct (Js.truthy (Js.get payload "email"));
    intros Hin; cbn in Hin; intuition discriminate.
Qed.

Lemma registered_authorize_configured_witness :
  ~ In (console_log "invalid google auth config")
       (trace (config_authorize one_tap_config Sample.network_offline
                 (Some Sample.credentials))).
Proof.
  apply (registered_authorize_configured Sample.network_offline one_tap_config
           (Some Sample.credentials)).
  left. reflexivity.
Defined.

(** ** [redirect]: the guard seen from its result *)

Lemma prefix_append (a b : string) : String.prefix a (a +:+ b) = true.
Proof.
  induction a as [| c a IH]; [by destruct b |].
  change (String c a +:+ b) with (String c (a +:+ b)). cbn.
  by destruct (ascii_dec c c).
Qed.

Lemma prefix_self (a : string) : String.prefix a a = true.
Proof.
  induction a as [| c a IH]; [done |]. cbn. by destruct (ascii_dec c c).
Qed.

(** X16: whatever [redirect] returns either starts with [baseUrl] (the base
    itself, or the base followed by the path asked for) or is the [url]
    asked for, and then only if the origin of [url] is [baseUrl]; and
    [redirect] neither logs nor calls a collaborator. *)
Theorem redirect_guard (W : World) (url baseUrl answer : string) :
  result (redirect W url baseUrl) = Returned answer ->
  (String.prefix baseUrl answer = true
   \/ (answer = url /\ URL_origin W url = Returned baseUrl))
  /\ trace (redirect W url baseUrl) = [].
Proof.
  unfold redirect. destruct (String.prefix "/" url).
  - intros [= <-]. split; [| done]. left. apply prefix_append.
  - destruct (URL_origin W url) as [origin |] eqn:Horigin; run; [| discriminate].
    destruct (String.eqb origin baseUrl) eqn:Hsame; intros [= <-]; (split; [| done]).
    + right. by apply String.eqb_eq in Hsame as ->.
    + left. apply prefix_self.
Qed.

Lemma redirect_guard_witness :
  (String.prefix "https://app.example.com" "https://app.example.com" = true
   \/ ("https://app.example.com" = "https://evil.example.com/x"
       /\ URL_origin Sample.online "https://evil.example.com/x"
          = Returned "https://app.example.com"))
  /\ trace (redirect Sample.online "https://evil.example.com/x" "https://app.example.com")
     = [].
Proof.
  apply (redirect_guard Sample.online "https://evil.example.com/x"
           "https://app.example.com" "https://app.example.com").
  reflexivity.
Defined.
